(** * docker-backup: backup and restore of container definitions

    A shallow embedding of [backup.go] and [restore.go].  Go strings are byte
    strings and are modelled by [string]; [[]byte] is [list byte]; pointers
    that may be nil are [option]; maps are [gmap]; the process-wide side
    effects (daemon calls, files, clock, stdout, child processes) are threaded
    through a state monad whose state records everything the program did.
    Closing a file (the deferred [Close] calls) changes nothing in this
    model and is left out.  What the libraries compute ([encoding/json],
    [archive/tar], [sanitize.Path]) and what the daemon and the operating
    system answer are fields of an environment; the header block that
    [archive/tar] writes for a plain file, the way it is read back, and the
    text [encoding/json] writes for a [Backup] are modelled next to it. *)

From Stdlib Require Import Strings.String Strings.Ascii Strings.Byte ZArith List Bool Lia.
From stdpp Require Import gmap strings list fin_maps.
Import ListNotations.

Local Open Scope string_scope.
Local Open Scope list_scope.

(** ** The [strings] package, as far as the program uses it *)

Module strings.

(** [strings.Contains(s, substr)]: [substr] occurs in [s] at some offset. *)
Fixpoint Contains (s substr : string) : bool :=
  String.prefix substr s ||
  match s with
  | EmptyString => false
  | String _ s' => Contains s' substr
  end.

(** [strings.HasSuffix]: [len(s) >= len(suffix) && s[len(s)-len(suffix):] == suffix]. *)
Definition HasSuffix (s suffix : string) : bool :=
  (String.length suffix <=? String.length s)%nat &&
  String.eqb
    (String.substring (String.length s - String.length suffix)
                      (String.length suffix) s)
    suffix.

(** Left-to-right scan shared by [Split] and [Replace] for a non-empty
    separator: [skip] counts the bytes of a match that are still to be
    stepped over, so that matches never overlap. *)
Fixpoint splitFrom (sep : string) (skip : nat) (s : string)
  : string * list string :=
  match s with
  | EmptyString => (EmptyString, [])
  | String c s' =>
      match skip with
      | S k => splitFrom sep k s'
      | O =>
          if String.prefix sep s
          then (EmptyString,
                let (p, ps) := splitFrom sep (String.length sep - 1) s' in
                p :: ps)
          else let (p, ps) := splitFrom sep 0 s' in (String c p, ps)
      end
  end.

Fixpoint explode (s : string) : list string :=
  match s with
  | EmptyString => []
  | String c s' => String c EmptyString :: explode s'
  end.

(** [strings.Split(s, sep)].  With an empty separator Go cuts after every
    UTF-8 sequence; the program only ever passes [" "] and ["/"], and the
    empty case is given here for single-byte characters. *)
Definition Split (s sep : string) : list string :=
  match sep with
  | EmptyString => explode s
  | _ => let (p, ps) := splitFrom sep 0 s in p :: ps
  end.

Fixpoint replaceFrom (old new : string) (skip : nat) (s : string) : string :=
  match s with
  | EmptyString => EmptyString
  | String c s' =>
      match skip with
      | S k => replaceFrom old new k s'
      | O =>
          if String.prefix old s
          then new ++ replaceFrom old new (String.length old - 1) s'
          else String c (replaceFrom old new 0 s')
      end
  end.

Fixpoint intersperse (new s : string) : string :=
  match s with
  | EmptyString => new
  | String c s' => new ++ String c (intersperse new s')
  end.

(** [strings.Replace(s, old, new, -1)]: every call site passes [-1], so all
    non-overlapping occurrences are replaced.  (Empty [old], never passed
    by the program, is given for single-byte characters.) *)
Definition Replace (s old new : string) : string :=
  match old with
  | EmptyString => intersperse new s
  | _ => replaceFrom old new 0 s
  end.

End strings.

(** Go's slice expressions on strings panic when the bound exceeds the
    length; [None] stands for that run-time panic. *)
Definition slice_from (s : string) (lo : nat) : option string :=
  if (lo <=? String.length s)%nat
  then Some (String.substring lo (String.length s - lo) s)
  else None.

Definition slice_to (s : string) (hi : nat) : option string :=
  if (hi <=? String.length s)%nat
  then Some (String.substring 0 hi s)
  else None.

(** ** Data model *)

(** A Go [error], identified with its message. *)
Definition error := string.

Definition bytes := list byte.

(** The result of a library or daemon call that returns [(T, error)] with
    exactly one of the two meaningful. *)
Inductive result (A : Type) : Type :=
| Ok (a : A)
| Err (e : error).
Arguments Ok {A} a.
Arguments Err {A} e.

(** The Docker API types are owned by the Docker client library.  Each is
    given with the fields the program touches and one uninterpreted field
    standing for all the others, which the program only passes along. *)
Module mount.
Record Mount := { Type_ : string; Source : string; Target : string }.
End mount.

Module container.
Record Config := { Image : string; Other : string }.
Record HostConfig := { Mounts : list mount.Mount; Other' : string }.
(** An element of the listing returned by [ContainerList]. *)
Record Summary := { ID : string }.
End container.

Module network.
(** [*network.EndpointSettings]: the program copies the pointer only. *)
Definition EndpointSettings := string.
Record NetworkingConfig :=
  { EndpointsConfig : gmap string EndpointSettings }.
End network.

Module image.
Record Summary := { ID : string; RepoTags : list string }.
End image.

Module types.
Record NetworkSettings :=
  { Networks : gmap string network.EndpointSettings; Other : string }.
Record MountPoint :=
  { Type_ : string; Source : string; Destination : string }.
(** The answer of [ContainerInspect]. *)
Record ContainerJSON := {
  ID : string;
  Name : string;
  Platform : string;
  Config : option container.Config;
  HostConfig : option container.HostConfig;
  NetworkSettings_ : option NetworkSettings;
  Mounts : list MountPoint
}.
Record CreateResponse := { RespID : string }.
End types.

(** [type Backup struct] of backup.go. *)
Record Backup := {
  Name : string;
  Config : option container.Config;
  HostConfig : option container.HostConfig;
  NetworkSettings : option types.NetworkSettings;
  Platform : string
}.

Module tar.
(** The fields of [tar.Header] that [backupTar] sets; times are instants
    of the clock. *)
Record Header := {
  Name : string;
  Size : Z;
  ModTime : Z;
  AccessTime : Z;
  ChangeTime : Z;
  Mode : Z
}.

(** What a [tar.Reader] makes of a file: entries in file order, each with
    the outcome of reading its body to the end, closed by a clean end of
    archive or by the error [Next] reports. *)
Inductive Stream :=
| EOF
| Corrupt (e : error)
| Entry (h : Header) (body : result bytes) (rest : Stream).

(** State of a [tar.Writer]: the file it writes to, the bytes the current
    entry still expects, and the padding owed when it is flushed. *)
Record Writer := { wr_path : string; wr_remaining : nat; wr_pad : nat }.

Definition blockSize : nat := 512.
Definition blockPadding (size : nat) : nat :=
  (blockSize - size mod blockSize) mod blockSize.
Definition zeros (n : nat) : bytes := repeat x00 n.
Definition ErrWriteTooLong : error := "archive/tar: write too long".
End tar.

(** ** The clock, as [time.Time] *)

Module time.
(** An instant is a number of nanoseconds since the Unix epoch. *)
Definition Second : Z := 1000000000.

(** [time.Time{}], January 1 of the year 1. *)
Definition zero : Z := -62135596800 * Second.

(** [t.Round(time.Second)]: to the nearest second, halfway values up. *)
Definition RoundSecond (t : Z) : Z :=
  let r := (t mod Second)%Z in
  if (r + r <? Second)%Z then (t - r)%Z else (t + (Second - r))%Z.

(** [t.Unix()] *)
Definition Unix (t : Z) : Z := (t / Second)%Z.
End time.

(** ** The header block [archive/tar] writes *)

Module ustar.
(** [WriteHeader] on a header whose [Format] is not set: [ModTime] is
    rounded to the second and [AccessTime] and [ChangeTime] are dropped. *)
Definition formatUnknown (h : tar.Header) : tar.Header :=
  {| tar.Name := tar.Name h;
     tar.Size := tar.Size h;
     tar.ModTime := time.RoundSecond (tar.ModTime h);
     tar.AccessTime := time.zero;
     tar.ChangeTime := time.zero;
     tar.Mode := tar.Mode h |}.

(** [fitsInOctal(n, x)]: [x] can be written with [n-1] octal digits. *)
Definition fitsInOctal (n : nat) (x : Z) : bool :=
  (0 <=? x)%Z && (x <? 8 ^ (Z.of_nat n - 1))%Z.

(** A name that goes into the [name] field as it is and is read back
    from it: at most 100 bytes, ASCII, no NUL; and one that names a regular
    file, not a directory. *)
Definition plainName (s : string) : bool :=
  (String.length s <=? 100)%nat
  && forallb (fun c => (0 <? nat_of_ascii c)%nat && (nat_of_ascii c <? 128)%nat)
             (list_ascii_of_string s)
  && negb (strings.HasSuffix s "/").

(** The seconds written to the [mtime] field; the zero time is written
    as the epoch. *)
Definition mtime (h : tar.Header) : Z :=
  if (tar.ModTime h =? time.zero)%Z then 0%Z else time.Unix (tar.ModTime h).

(** The headers written out here: those of plainly named regular files
    whose numbers fit their fields.  [WriteHeader] writes them in the
    USTAR format, which it chooses whenever it can. *)
Definition fits (h : tar.Header) : bool :=
  plainName (tar.Name h)
  && fitsInOctal 8 (tar.Mode h)
  && fitsInOctal 12 (tar.Size h)
  && fitsInOctal 12 (mtime h).

Definition octalDigit (d : Z) : byte :=
  match d with
  | 0%Z => x30 | 1%Z => x31 | 2%Z => x32 | 3%Z => x33
  | 4%Z => x34 | 5%Z => x35 | 6%Z => x36 | _ => x37
  end.

(** [x] in [digits] octal digits, leading zeros included. *)
Fixpoint octal (digits : nat) (x : Z) : bytes :=
  match digits with
  | O => []
  | S k => octal k (x / 8) ++ [octalDigit (x mod 8)]
  end.

(** [formatOctal]: zero-padded octal with a closing NUL. *)
Definition numeric (width : nat) (x : Z) : bytes :=
  octal (width - 1) x ++ [x00].

(** [formatString]: the bytes, NUL-padded to the width of the field. *)
Definition text (width : nat) (s : string) : bytes :=
  list_byte_of_string s ++ tar.zeros (width - String.length s).

(** The fields of the block in front of the checksum, and those behind
    it. *)
Definition front (h : tar.Header) : bytes :=
  text 100 (tar.Name h)          (* name *)
  ++ numeric 8 (tar.Mode h)      (* mode *)
  ++ numeric 8 0                 (* uid *)
  ++ numeric 8 0                 (* gid *)
  ++ numeric 12 (tar.Size h)     (* size *)
  ++ numeric 12 (mtime h).       (* mtime *)

Definition back : bytes :=
  [x30]                          (* typeflag: a regular file *)
  ++ tar.zeros 100               (* linkname *)
  ++ list_byte_of_string "ustar" ++ [x00]  (* magic *)
  ++ [x30; x30]                  (* version *)
  ++ tar.zeros 32                (* uname *)
  ++ tar.zeros 32                (* gname *)
  ++ numeric 8 0                 (* devmajor *)
  ++ numeric 8 0                 (* devminor *)
  ++ tar.zeros 155               (* prefix *)
  ++ tar.zeros 12.

(** The 512 bytes of the block around a given checksum field. *)
Definition blockWith (chksum : bytes) (h : tar.Header) : bytes :=
  front h ++ chksum ++ back.

(** The sum of the bytes of a block. *)
Definition sum (block : bytes) : Z :=
  fold_right (fun b acc => (Z.of_nat (Byte.to_nat b) + acc)%Z) 0%Z block.

(** The checksum is taken with the checksum field read as spaces, and is
    written as six octal digits, a NUL and a space. *)
Definition block (h : tar.Header) : bytes :=
  blockWith (octal 6 (sum (blockWith (repeat x20 8) h)) ++ [x00; x20]) h.

(** *** Reading a header block back *)

Definition field (offset width : nat) (block : bytes) : bytes :=
  firstn width (skipn offset block).

Fixpoint untilNUL (b : bytes) : bytes :=
  match b with
  | [] => []
  | x00 :: _ => []
  | c :: rest => c :: untilNUL rest
  end.

Definition digitValue (b : byte) : option Z :=
  match b with
  | x30 => Some 0%Z | x31 => Some 1%Z | x32 => Some 2%Z | x33 => Some 3%Z
  | x34 => Some 4%Z | x35 => Some 5%Z | x36 => Some 6%Z | x37 => Some 7%Z
  | _ => None
  end.

Definition blank (c : byte) : bool := Byte.eqb c x00 || Byte.eqb c x20.

Fixpoint trimLeft (b : bytes) : bytes :=
  match b with
  | [] => []
  | c :: rest => if blank c then trimLeft rest else b
  end.

(** [bytes.Trim(b, " \x00")] *)
Definition trim (b : bytes) : bytes := rev (trimLeft (rev (trimLeft b))).

Fixpoint digits (acc : Z) (b : bytes) : option Z :=
  match b with
  | [] => Some acc
  | c :: rest =>
      match digitValue c with
      | Some d => digits (acc * 8 + d) rest
      | None => None
      end
  end.

(** [parseOctal]: the field without the NULs and spaces around it, read
    in base 8; an empty field is 0 and anything but octal digits is an
    error. *)
Definition parseOctal (b : bytes) : option Z := digits 0 (trim b).

Fixpoint sameBytes (a b : bytes) : bool :=
  match a, b with
  | [], [] => true
  | x :: a', y :: b' => Byte.eqb x y && sameBytes a' b'
  | _, _ => false
  end.

(** The sum of the bytes taken as signed, which old writers used. *)
Definition signedSum (block : bytes) : Z :=
  fold_right (fun b acc =>
                let n := Z.of_nat (Byte.to_nat b) in
                ((if n <? 128 then n else n - 256) + acc)%Z) 0%Z block.

(** The checksum field holds the sum of the block with that field read as
    spaces. *)
Definition checksumValid (block : bytes) : bool :=
  match parseOctal (field 148 8 block) with
  | Some stored =>
      let summed := firstn 148 block ++ repeat x20 8 ++ skipn 156 block in
      (stored =? sum summed)%Z || (stored =? signedSum summed)%Z
  | None => false
  end.

(** The block is the header of a regular file in the USTAR format whose
    name has no prefix: the only kind of header the program has written. *)
Definition plainFile (block : bytes) : bool :=
  sameBytes (field 257 8 block) (list_byte_of_string "ustar" ++ [x00; x30; x30])
  && sameBytes (field 156 1 block) [x30]
  && sameBytes (untilNUL (field 345 155 block)) [].

(** The header a reader finds recorded in such a block: name, mode, size
    and modification time; the format has no field for the other two
    times, which a reader reports as the zero time.  Blocks of other
    kinds (directories and links, the V7, GNU and PAX formats) are outside
    this model, which has [None] for them as for a block whose checksum or
    numbers are wrong. *)
Definition recorded (block : bytes) : option tar.Header :=
  if checksumValid block && plainFile block then
    match parseOctal (field 100 8 block),
          parseOctal (field 124 12 block),
          parseOctal (field 136 12 block) with
    | Some mode, Some size, Some seconds =>
        Some {| tar.Name := string_of_list_byte (untilNUL (field 0 100 block));
                tar.Size := size;
                tar.ModTime := (seconds * time.Second)%Z;
                tar.AccessTime := time.zero;
                tar.ChangeTime := time.zero;
                tar.Mode := mode |}
    | _, _, _ => None
    end
  else None.

(** *** Reading an archive of such entries *)

Definition ErrHeader : error := "archive/tar: invalid tar header".
Definition ErrUnexpectedEOF : error := "unexpected EOF".

Definition allZero (b : bytes) : bool := forallb (Byte.eqb x00) b.

(** [tar.Reader] on an archive of such entries, one step for each call
    of [Next]: a file that ends, or two zero blocks, close the archive; a
    block that is not a header as above is [ErrHeader]; the body of an
    entry is the [Size] bytes after its header, an error if the file ends
    before them; the next header starts at the next whole block, and a
    file that ends within the padding just ends the archive. *)
Fixpoint read (fuel : nat) (content : bytes) : tar.Stream :=
  match fuel with
  | O => tar.EOF
  | S fuel' =>
      if (length content =? 0)%nat then tar.EOF
      else if (length content <? tar.blockSize)%nat
      then tar.Corrupt ErrUnexpectedEOF
      else
        let header := firstn tar.blockSize content in
        let rest := skipn tar.blockSize content in
        if allZero header then
          if (length rest =? 0)%nat then tar.EOF
          else if (length rest <? tar.blockSize)%nat
          then tar.Corrupt ErrUnexpectedEOF
          else if allZero (firstn tar.blockSize rest) then tar.EOF
          else tar.Corrupt ErrHeader
        else
          match recorded header with
          | None => tar.Corrupt ErrHeader
          | Some h =>
              let size := Z.to_nat (tar.Size h) in
              if (length rest <? size)%nat
              then tar.Entry h (Err ErrUnexpectedEOF)
                             (tar.Corrupt ErrUnexpectedEOF)
              else if (length rest <? size + tar.blockPadding size)%nat
              then tar.Entry h (Ok (firstn size rest)) tar.EOF
              else tar.Entry h (Ok (firstn size rest))
                     (read fuel' (skipn (size + tar.blockPadding size) rest))
          end
  end.

(** Every step consumes at least one block, so the length of the file is
    fuel enough. *)
Definition Reader (content : bytes) : tar.Stream :=
  read (length content) content.
End ustar.

(** Everything the program does to the outside world, in program order. *)
Inductive Event :=
| Stdout (text : string)
| TimeNow
| ContainerInspect (id : string)
| ImageList
| ContainerList (all : bool)
| ContainerCreate (config : option container.Config)
                  (hostConfig : option container.HostConfig)
                  (networkConfig : option network.NetworkingConfig)
                  (name : string)
| ContainerStart (id : string)
| OsCreate (path : string)
| OsOpen (path : string)
| ReadFile (path : string)
| WriteFile (path : string) (data : bytes) (perm : Z)
| WriteString (path : string) (s : string)
| TarWriteHeader (path : string) (h : tar.Header)
| TarWrite (path : string) (b : bytes)
| TarClose (path : string)
| ExecRun (name : string) (args : list string).

(** ** The environment and the state of a run *)

(** The collaborators the program does not own: the command-line flags, the
    Docker daemon, the libraries [encoding/json], [archive/tar] and
    [sanitize], the clock and the operating system.  A collaborator that can
    answer differently from one call to the next is a function of the
    journal of events so far, the call in question being its last event. *)
Record Env := {
  optLaunch : string;
  optTar : bool;
  optAll : bool;
  optStopped : bool;
  optVerbose : bool;
  optStart : bool;
  cli_ContainerInspect : list Event -> result types.ContainerJSON;
  cli_ImageList : list Event -> result (list image.Summary);
  cli_ContainerList : list Event -> result (list container.Summary);
  cli_ContainerCreate : list Event -> result types.CreateResponse;
  cli_ContainerStart : list Event -> option error;
  json_MarshalIndent : Backup -> result bytes;
  json_decode : bytes -> result Backup;
  sanitize_Path : string -> string;
  tar_headerBlock : tar.Header -> bytes;
  tar_parse : bytes -> tar.Stream;
  time_Now : list Event -> Z;
  io_fault : list Event -> option error;
  exec_Run : list Event -> option error
}.

(** The mutable state: the files on disk, the journal, and the package-level
    variables [paths] and [tw] of backup.go. *)
Record World := {
  files : gmap string bytes;
  journal : list Event;
  paths : list string;
  tw : option tar.Writer
}.

(** A computation either returns or panics; a panic carries its message. *)
Inductive outcome (A : Type) : Type :=
| Return (a : A)
| Panic (v : string).
Arguments Return {A} a.
Arguments Panic {A} v.

Definition M (A : Type) : Type := World -> outcome A * World.

Definition ret {A} (a : A) : M A := fun w => (Return a, w).

Definition bind {A B} (m : M A) (k : A -> M B) : M B :=
  fun w =>
    match m w with
    | (Return a, w') => k a w'
    | (Panic v, w') => (Panic v, w')
    end.

Notation "x <- m ;; k" := (bind m (fun x => k))
  (at level 100, m at next level, right associativity).
Notation "m ;;; k" := (bind m (fun _ => k))
  (at level 100, right associativity).

Definition panic {A} (v : string) : M A := fun w => (Panic v, w).

(** Append an event to the journal. *)
Definition emit (ev : Event) : M unit :=
  fun w =>
    (Return tt,
     {| files := files w; journal := journal w ++ [ev];
        paths := paths w; tw := tw w |}).

(** Perform the call [ev] and let the collaborator [f] answer it. *)
Definition call {A} (ev : Event) (f : list Event -> A) : M A :=
  emit ev ;;; (fun w => (Return (f (journal w)), w)).

Definition getFile (path : string) : M (option bytes) :=
  fun w => (Return (files w !! path), w).

Definition putFile (path : string) (data : bytes) : M unit :=
  fun w =>
    (Return tt,
     {| files := <[path := data]> (files w); journal := journal w;
        paths := paths w; tw := tw w |}).

Definition appendFile (path : string) (data : bytes) : M unit :=
  old <- getFile path ;;
  putFile path (default [] old ++ data).

Definition setPaths (ps : list string) : M unit :=
  fun w =>
    (Return tt,
     {| files := files w; journal := journal w; paths := ps; tw := tw w |}).

Definition getPaths : M (list string) := fun w => (Return (paths w), w).

Definition setTw (t : option tar.Writer) : M unit :=
  fun w =>
    (Return tt,
     {| files := files w; journal := journal w; paths := paths w; tw := t |}).

Definition getTw : M tar.Writer :=
  fun w =>
    match tw w with
    | Some t => (Return t, w)
    | None => (Panic "invalid memory address or nil pointer dereference", w)
    end.

(** [fmt.Println] and [fmt.Printf]: the text reaches standard output. *)
Definition fmt_Print (text : string) : M unit := emit (Stdout text).

Fixpoint forEach {A} (xs : list A) (body : A -> M unit) : M unit :=
  match xs with
  | [] => ret tt
  | x :: xs' => body x ;;; forEach xs' body
  end.

Definition nl : string := String (ascii_of_nat 10) EmptyString.

(** ** The text [encoding/json] writes *)

Module json.
Definition quote : string := String (ascii_of_nat 34) "".
Definition backslash : string := String (ascii_of_nat 92) "".

Definition hexDigit (n : nat) : string :=
  String.substring n 1 "0123456789abcdef".

(** [\u00XX] *)
Definition u00 (n : nat) : string :=
  backslash +:+ "u00" +:+ hexDigit (n / 16) +:+ hexDigit (n mod 16).

(** How a byte below [utf8.RuneSelf] is written, with HTML escaping on as
    in [Marshal]. *)
Definition low (c : Ascii.ascii) : string :=
  let n := nat_of_ascii c in
  if (n =? 34)%nat then backslash +:+ quote
  else if (n =? 92)%nat then backslash +:+ backslash
  else if (n =? 8)%nat then backslash +:+ "b"
  else if (n =? 12)%nat then backslash +:+ "f"
  else if (n =? 10)%nat then backslash +:+ "n"
  else if (n =? 13)%nat then backslash +:+ "r"
  else if (n =? 9)%nat then backslash +:+ "t"
  else if (n <? 32)%nat || (n =? 60)%nat || (n =? 62)%nat || (n =? 38)%nat
  then u00 n
  else String c "".

Definition between (lo hi : nat) (c : Ascii.ascii) : bool :=
  (lo <=? nat_of_ascii c)%nat && (nat_of_ascii c <=? hi)%nat.

(** [utf8.DecodeRuneInString] at a byte of 0x80 or more: the length of
    the well-formed sequence that starts there, [0] when there is none
    (the decoder then answers [RuneError] with width 1). *)
Definition runeLen (s : string) : nat :=
  match s with
  | String c0 (String c1 rest) =>
      let n := nat_of_ascii c0 in
      if between 194 223 c0 then
        if between 128 191 c1 then 2 else 0
      else if between 224 239 c0 then
        match rest with
        | String c2 _ =>
            if between (if (n =? 224)%nat then 160 else 128)
                       (if (n =? 237)%nat then 159 else 191) c1
               && between 128 191 c2
            then 3 else 0
        | EmptyString => 0
        end
      else if between 240 244 c0 then
        match rest with
        | String c2 (String c3 _) =>
            if between (if (n =? 240)%nat then 144 else 128)
                       (if (n =? 244)%nat then 143 else 191) c1
               && between 128 191 c2 && between 128 191 c3
            then 4 else 0
        | _ => 0
        end
      else 0
  | _ => 0
  end.

(** U+2028 and U+2029, which are escaped although they are well formed. *)
Definition lineSeparator (s : string) : option string :=
  match s with
  | String c0 (String c1 (String c2 _)) =>
      if (nat_of_ascii c0 =? 226)%nat && (nat_of_ascii c1 =? 128)%nat
      then if (nat_of_ascii c2 =? 168)%nat then Some "2028"
           else if (nat_of_ascii c2 =? 169)%nat then Some "2029"
           else None
      else None
  | _ => None
  end.

(** The loop of [appendString]; [skip] counts the bytes that belong to
    the rune already written. *)
Fixpoint escape (skip : nat) (s : string) : string :=
  match s with
  | EmptyString => EmptyString
  | String c rest =>
      match skip with
      | S skip' => escape skip' rest
      | O =>
          if (nat_of_ascii c <? 128)%nat then low c +:+ escape 0 rest
          else
            match runeLen s with
            | O => backslash +:+ "ufffd" +:+ escape 0 rest
            | S more =>
                match lineSeparator s with
                | Some code => backslash +:+ "u" +:+ code +:+ escape more rest
                | None => String.substring 0 (S more) s +:+ escape more rest
                end
            end
      end
  end.

(** A Go string as a JSON string. *)
Definition quoted (s : string) : string := quote +:+ escape 0 s +:+ quote.

(** A pointer: [null] when nil, else the value it points to. *)
Definition pointer {A} (value : A -> string) (p : option A) : string :=
  match p with
  | Some a => value a
  | None => "null"
  end.

Definition member (key value : string) : string :=
  "  " +:+ quote +:+ key +:+ quote +:+ ": " +:+ value.

Section Docker.
(** The encodings of Docker's own structs, as values of a member of the
    top-level object. *)
Variable config : container.Config -> string.
Variable hostConfig : container.HostConfig -> string.
Variable networkSettings : types.NetworkSettings -> string.

(** [json.MarshalIndent(backup, "", "  ")] of a [Backup]. *)
Definition MarshalIndent (b : Backup) : result bytes :=
  Ok (list_byte_of_string
        ("{" +:+ nl
         +:+ member "Name" (quoted (Name b)) +:+ "," +:+ nl
         +:+ member "Config" (pointer config (Config b)) +:+ "," +:+ nl
         +:+ member "HostConfig" (pointer hostConfig (HostConfig b)) +:+ "," +:+ nl
         +:+ member "NetworkSettings"
               (pointer networkSettings (NetworkSettings b)) +:+ "," +:+ nl
         +:+ member "Platform" (quoted (Platform b)) +:+ nl
         +:+ "}")).
End Docker.
End json.

(** ** Library and daemon calls *)

Section Collaborators.
Variable E : Env.

Definition os_Create (path : string) : M (result string) :=
  fault <- call (OsCreate path) (io_fault E) ;;
  match fault with
  | Some e => ret (Err e)
  | None => putFile path [] ;;; ret (Ok path)
  end.

Definition ioutil_WriteFile (path : string) (data : bytes) (perm : Z)
  : M (option error) :=
  fault <- call (WriteFile path data perm) (io_fault E) ;;
  match fault with
  | Some e => ret (Some e)
  | None => putFile path data ;;; ret None
  end.

Definition File_WriteString (file : string) (s : string) : M (option error) :=
  fault <- call (WriteString file s) (io_fault E) ;;
  match fault with
  | Some e => ret (Some e)
  | None => appendFile file (list_byte_of_string s) ;;; ret None
  end.

(** Reading fails exactly when the file does not exist. *)
Definition os_Open (path : string) : M (result string) :=
  emit (OsOpen path) ;;;
  content <- getFile path ;;
  match content with
  | Some _ => ret (Ok path)
  | None => ret (Err ("open " +:+ path +:+ ": no such file or directory"))
  end.

Definition ioutil_ReadFile (path : string) : M (result bytes) :=
  emit (ReadFile path) ;;;
  content <- getFile path ;;
  match content with
  | Some b => ret (Ok b)
  | None => ret (Err ("open " +:+ path +:+ ": no such file or directory"))
  end.

(** [tar.NewReader(tarfile)]: the reader's view of the opened file. *)
Definition tar_NewReader (tarfile : string) : M tar.Stream :=
  content <- getFile tarfile ;;
  ret (tar_parse E (default [] content)).

Definition tar_NewWriter (tarfile : string) : tar.Writer :=
  {| tar.wr_path := tarfile; tar.wr_remaining := 0; tar.wr_pad := 0 |}.

Definition missedWriting : error := "archive/tar: missed writing bytes".

(** The bytes [WriteHeader] makes of a header.  The program leaves
    [Format] unset, so the times are normalised first; a header of the
    kind [ustar.fits] describes is one USTAR block, and what is written
    for any other (longer names, PAX or GNU records) is the
    collaborator's. *)
Definition tar_header (th : tar.Header) : bytes :=
  let th' := ustar.formatUnknown th in
  if ustar.fits th' then ustar.block th' else tar_headerBlock E th'.

(** [tw.WriteHeader]: the previous entry must be complete; the header
    block goes to the file and the entry expects [Size] bytes. *)
Definition tar_WriteHeader (th : tar.Header) : M (option error) :=
  t <- getTw ;;
  fault <- call (TarWriteHeader (tar.wr_path t) th) (io_fault E) ;;
  if (0 <? tar.wr_remaining t)%nat then ret (Some missedWriting)
  else if (tar.Size th <? 0)%Z then ret (Some "archive/tar: invalid tar header")
  else
    match fault with
    | Some e => ret (Some e)
    | None =>
        appendFile (tar.wr_path t) (tar_header th) ;;;
        setTw (Some {| tar.wr_path := tar.wr_path t;
                       tar.wr_remaining := Z.to_nat (tar.Size th);
                       tar.wr_pad := tar.blockPadding (Z.to_nat (tar.Size th)) |}) ;;;
        ret None
    end.

(** [tw.Write]: at most the bytes the entry still expects are written;
    more than that is [ErrWriteTooLong]. *)
Definition tar_Write (b : bytes) : M (option error) :=
  t <- getTw ;;
  fault <- call (TarWrite (tar.wr_path t) b) (io_fault E) ;;
  let b' := firstn (tar.wr_remaining t) b in
  match fault with
  | Some e => ret (Some e)
  | None =>
      appendFile (tar.wr_path t) b' ;;;
      setTw (Some {| tar.wr_path := tar.wr_path t;
                     tar.wr_remaining := tar.wr_remaining t - length b';
                     tar.wr_pad := tar.wr_pad t |}) ;;;
      if (tar.wr_remaining t <? length b)%nat
      then ret (Some tar.ErrWriteTooLong)
      else ret None
  end.

(** [tw.Close]: pads the last entry to a whole block and writes the
    end-of-archive marker of two zero blocks. *)
Definition tar_Close : M (option error) :=
  t <- getTw ;;
  fault <- call (TarClose (tar.wr_path t)) (io_fault E) ;;
  if (0 <? tar.wr_remaining t)%nat then ret (Some missedWriting)
  else
    match fault with
    | Some e => ret (Some e)
    | None =>
        appendFile (tar.wr_path t)
          (tar.zeros (tar.wr_pad t) ++ tar.zeros (2 * tar.blockSize)) ;;;
        ret None
    end.

(** [json.Unmarshal]: empty input is a syntax error before any decoding. *)
Definition json_Unmarshal (data : bytes) : result Backup :=
  match data with
  | [] => Err "unexpected end of JSON input"
  | _ => json_decode E data
  end.

Definition now : M Z := call TimeNow (time_Now E).

(** [exec.Command(name, args...).Run()] *)
Definition exec_Command_Run (name : string) (args : list string)
  : M (option error) :=
  call (ExecRun name args) (exec_Run E).

End Collaborators.

(** ** backup.go *)

Section BackupGo.
Variable E : Env.

Definition backupTar (filename : string) (backup : Backup) : M (option error) :=
  match json_MarshalIndent E backup with
  | Err e => ret (Some e)
  | Ok b =>
      r <- os_Create E (filename +:+ ".tar") ;;
      match r with
      | Err e => ret (Some e)
      | Ok tarfile =>
          setTw (Some (tar_NewWriter tarfile)) ;;;
          modTime <- now E ;;
          accessTime <- now E ;;
          changeTime <- now E ;;
          let th := {| tar.Name := "container.json";
                       tar.Size := Z.of_nat (length b);
                       tar.ModTime := modTime;
                       tar.AccessTime := accessTime;
                       tar.ChangeTime := changeTime;
                       tar.Mode := 6 * 64 (* 0600 *) |} in
          err <- tar_WriteHeader E th ;;
          match err with
          | Some e => ret (Some e)
          | None =>
              err <- tar_Write E b ;;
              match err with
              | Some e => ret (Some e)
              | None =>
                  tar_Close E ;;;
                  fmt_Print ("Created backup: " +:+ filename +:+ ".tar" +:+ nl) ;;;
                  ret None
              end
          end
      end
  end.

(** The inner loop of [getFullImageName]: the first tag that contains
    [imageName]. *)
Fixpoint closerTag (imageName : string) (tags : list string) : option string :=
  match tags with
  | [] => None
  | tag :: tags' =>
      if negb (strings.Contains tag imageName)
      then closerTag imageName tags'
      else Some tag
  end.

(** The outer loop of [getFullImageName].  [None] is the index panic of
    [image.RepoTags[0]] on an empty slice. *)
Fixpoint pickTag (imageName : string) (images : list image.Summary)
  : option string :=
  match images with
  | [] => Some imageName
  | img :: images' =>
      if negb (strings.Contains imageName (image.ID img))
         || (length (image.RepoTags img) =? 0)%nat
      then pickTag imageName images'
      else
        match closerTag imageName (image.RepoTags img) with
        | Some tag => Some tag
        | None => nth_error (image.RepoTags img) 0
        end
  end.

Definition getFullImageName (imageName : string) : M (string * option error) :=
  if strings.Contains imageName ":" then ret (imageName, None)
  else
    r <- call ImageList (cli_ImageList E) ;;
    match r with
    | Err e => ret (imageName, Some e)
    | Ok images =>
        match pickTag imageName images with
        | Some tag => ret (tag, None)
        | None => panic "index out of range [0] with length 0"
        end
    end.

Definition sliceOrPanic (s : option string) : M string :=
  match s with
  | Some s' => ret s'
  | None => panic "slice bounds out of range"
  end.

Definition deref {A} (p : option A) : M A :=
  match p with
  | Some a => ret a
  | None => panic "invalid memory address or nil pointer dereference"
  end.

(** The artifact's filename stem, lines 146-147. *)
Definition artifactStem (image ID : string) : string :=
  strings.Replace (sanitize_Path E (image +:+ "-" +:+ ID)) "/" "_".

(** The command line [ol] of the launch hook, lines 183-184. *)
Definition launchLine (filename : string) : string :=
  let ol := strings.Replace (optLaunch E) "%tag" filename in
  strings.Replace ol "%list" (filename +:+ ".backup.files").

(** The launch hook, lines 182-194. *)
Definition launchHook (filename : string) : M (option error) :=
  if negb (String.eqb (optLaunch E) "")
  then
    let ol := launchLine filename in
    fmt_Print ("Launching external command and waiting for it to finish:" +:+ nl) ;;;
    fmt_Print (ol +:+ nl) ;;;
    match strings.Split ol " " with
    | l0 :: l1 => exec_Command_Run E l0 l1
    | [] => panic "index out of range [0] with length 0"
    end
  else ret None.

(** The [Backup] literal, lines 138-144: [config] is [conf.Config] after
    the image name has been resolved. *)
Definition snapshot (conf : types.ContainerJSON) (config : container.Config)
  : Backup :=
  {| Name := types.Name conf;
     Config := Some config;
     HostConfig := types.HostConfig conf;
     NetworkSettings := types.NetworkSettings_ conf;
     Platform := types.Platform conf |}.

(** The loop over [paths], lines 173-178. *)
Fixpoint writePaths (filelist : string) (ps : list string) : M (option error) :=
  match ps with
  | [] => ret None
  | s :: ps' =>
      err <- File_WriteString E filelist (s +:+ nl) ;;
      match err with
      | Some e => ret (Some e)
      | None => writePaths filelist ps'
      end
  end.

Definition backup (ID : string) : M (option error) :=
  r <- call (ContainerInspect ID) (cli_ContainerInspect E) ;;
  match r with
  | Err e => ret (Some e)
  | Ok conf =>
      name1 <- sliceOrPanic (slice_from (types.Name conf) 1) ;;
      config <- deref (types.Config conf) ;;
      id12 <- sliceOrPanic (slice_to (types.ID conf) 12) ;;
      fmt_Print ("Creating backup of " +:+ name1 +:+ " ("
                 +:+ container.Image config +:+ ", " +:+ id12 +:+ ")" +:+ nl) ;;;
      setPaths [] ;;;
      resolved <- getFullImageName (container.Image config) ;;
      let (imageName, err) := resolved in
      let config := {| container.Image := imageName;
                       container.Other := container.Other config |} in
      match err with
      | Some e => ret (Some e)
      | None =>
          let backup := snapshot conf config in
          let filename := artifactStem (container.Image config) ID in
          if optTar E then backupTar filename backup
          else
            match json_MarshalIndent E backup with
            | Err e => ret (Some e)
            | Ok b =>
                err <- ioutil_WriteFile E (filename +:+ ".backup.json") b (6 * 64) ;;
                match err with
                | Some e => ret (Some e)
                | None =>
                    r <- os_Create E (filename +:+ ".backup.files") ;;
                    match r with
                    | Err e => ret (Some e)
                    | Ok filelist =>
                        err <- File_WriteString E filelist
                                 (filename +:+ ".backup.json" +:+ nl) ;;
                        match err with
                        | Some e => ret (Some e)
                        | None =>
                            ps <- getPaths ;;
                            err <- writePaths filelist ps ;;
                            match err with
                            | Some e => ret (Some e)
                            | None =>
                                fmt_Print ("Created backup: " +:+ filename
                                           +:+ ".backup.json" +:+ nl) ;;;
                                launchHook filename
                            end
                        end
                    end
                end
            end
      end
  end.

Fixpoint backupEach (containers : list container.Summary) : M (option error) :=
  match containers with
  | [] => ret None
  | c :: containers' =>
      err <- backup (container.ID c) ;;
      match err with
      | Some e => ret (Some e)
      | None => backupEach containers'
      end
  end.

Definition backupAll : M (option error) :=
  r <- call (ContainerList (optStopped E)) (cli_ContainerList E) ;;
  match r with
  | Err e => panic e
  | Ok containers => backupEach containers
  end.

(** [backupCmd.RunE] *)
Definition backupCmd (args : list string) : M (option error) :=
  if optAll E then backupAll
  else
    match args with
    | [] => ret (Some "backup requires the ID of a container")
    | arg0 :: _ => backup arg0
    end.

End BackupGo.

(** ** restore.go *)

Section RestoreGo.
Variable E : Env.

(** [nameparts[len(nameparts)-1]] *)
Definition lastPart (nameparts : list string) : M string :=
  match last nameparts with
  | Some name => ret name
  | None => panic "index out of range [-1]"
  end.

(** The copy loop over [backup.NetworkSettings.Networks]. *)
Definition copyEndpoints (networks : gmap string network.EndpointSettings)
  : gmap string network.EndpointSettings :=
  map_fold (fun k v ep => <[k := v]> ep) ∅ networks.

Definition createContainer (backup : Backup) : M (string * option error) :=
  let nameparts := strings.Split (Name backup) "/" in
  name <- lastPart nameparts ;;
  fmt_Print ("Restoring Container: " +:+ name +:+ nl) ;;;
  let config := Config backup in
  let hostConfig := HostConfig backup in
  let networkConfig :=
    match NetworkSettings backup with
    | Some ns =>
        Some {| network.EndpointsConfig := copyEndpoints (types.Networks ns) |}
    | None => None
    end in
  r <- call (ContainerCreate config hostConfig networkConfig name)
            (cli_ContainerCreate E) ;;
  match r with
  | Err e => ret ("", Some ("failed to create container: " +:+ e))
  | Ok resp =>
      fmt_Print ("Created Container with ID: " +:+ types.RespID resp +:+ nl) ;;;
      hc <- deref (HostConfig backup) ;;
      forEach (container.Mounts hc)
        (fun m => fmt_Print ("Old Mount (type " +:+ mount.Type_ m +:+ ") "
                             +:+ mount.Source m +:+ " -> "
                             +:+ mount.Target m +:+ nl)) ;;;
      r <- call (ContainerInspect (types.RespID resp)) (cli_ContainerInspect E) ;;
      match r with
      | Err e => ret ("", Some e)
      | Ok conf =>
          forEach (types.Mounts conf)
            (fun m => fmt_Print ("New Mount (type " +:+ types.Type_ m +:+ ") "
                                 +:+ types.Source m +:+ " -> "
                                 +:+ types.Destination m +:+ nl)) ;;;
          ret (types.RespID resp, None)
      end
  end.

Definition startContainer (id : string) : M (option error) :=
  id12 <- sliceOrPanic (slice_to id 12) ;;
  fmt_Print ("Starting container: " +:+ id12 +:+ nl) ;;;
  err <- call (ContainerStart id) (cli_ContainerStart E) ;;
  match err with
  | Some e => ret (Some e)
  | None => ret None
  end.

(** Lines 72-80 of [restoreTar] and 94-102 of [restore]. *)
Definition createAndStart (backup : Backup) : M (option error) :=
  created <- createContainer backup ;;
  let (id, err) := created in
  match err with
  | Some e => ret (Some e)
  | None => if optStart E then startContainer id else ret None
  end.

(** The [for] loop of [restoreTar], lines 48-64: [b] is the buffer. *)
Fixpoint scanTar (tr : tar.Stream) (b : bytes) : result bytes :=
  match tr with
  | tar.EOF => Ok b
  | tar.Corrupt e => Err e
  | tar.Entry th body rest =>
      if String.eqb (tar.Name th) "container.json"
      then
        match body with
        | Err e => Err e
        | Ok b' => scanTar rest b'
        end
      else scanTar rest b
  end.

(** Lines 40-70 of [restoreTar]: from the file name to the record. *)
Definition loadTar (filename : string) : M (result Backup) :=
  r <- os_Open filename ;;
  match r with
  | Err e => ret (Err e)
  | Ok tarfile =>
      tr <- tar_NewReader E tarfile ;;
      match scanTar tr [] with
      | Err e => ret (Err e)
      | Ok b => ret (json_Unmarshal E b)
      end
  end.

Definition restoreTar (filename : string) : M (option error) :=
  r <- loadTar filename ;;
  match r with
  | Err e => ret (Some e)
  | Ok backup => createAndStart backup
  end.

(** Lines 84-92 of [restore]. *)
Definition loadJSON (filename : string) : M (result Backup) :=
  r <- ioutil_ReadFile filename ;;
  match r with
  | Err e => ret (Err e)
  | Ok b => ret (json_Unmarshal E b)
  end.

Definition restore (filename : string) : M (option error) :=
  r <- loadJSON filename ;;
  match r with
  | Err e => ret (Some e)
  | Ok backup => createAndStart backup
  end.

(** [restoreCmd.RunE] *)
Definition restoreCmd (args : list string) : M (option error) :=
  match args with
  | [] => ret (Some "restore requires a .json or .tar backup")
  | arg0 :: _ =>
      if strings.HasSuffix arg0 ".json" then restore arg0
      else if strings.HasSuffix arg0 ".tar" then restoreTar arg0
      else ret (Some "unknown file type, please provide a .tar or .json file")
  end.

End RestoreGo.

(** ** Vocabulary for the statements *)

(** The world after the events [evs] have been journalled. *)
Definition logged (w : World) (evs : list Event) : World :=
  {| files := files w; journal := journal w ++ evs;
     paths := paths w; tw := tw w |}.

(** The file an event touches, if it touches one. *)
Definition eventPath (ev : Event) : option string :=
  match ev with
  | OsCreate p | OsOpen p | ReadFile p | WriteFile p _ _ | WriteString p _
  | TarWriteHeader p _ | TarWrite p _ | TarClose p => Some p
  | _ => None
  end.

Definition isContainerCreate (ev : Event) : bool :=
  match ev with
  | ContainerCreate _ _ _ _ => true
  | _ => false
  end.

(** A tag that does not contain the image name. *)
Definition misses (imageName tag : string) : Prop :=
  strings.Contains tag imageName = false.

(** An image-list entry that [getFullImageName] passes over: its ID does not
    occur in the image name, or it has no tags. *)
Definition skippable (imageName : string) (img : image.Summary) : Prop :=
  strings.Contains imageName (image.ID img) = false \/ image.RepoTags img = [].

(** A readable archive, as the list of its entries. *)
Fixpoint archive (entries : list (tar.Header * bytes)) : tar.Stream :=
  match entries with
  | [] => tar.EOF
  | (h, data) :: entries' => tar.Entry h (Ok data) (archive entries')
  end.

Definition isContainerJSON (entry : tar.Header * bytes) : bool :=
  String.eqb (tar.Name (fst entry)) "container.json".

(** The contents of the last entry named [container.json], empty when
    there is none. *)
Definition lastContainerJSON (entries : list (tar.Header * bytes)) : bytes :=
  match last (List.filter isContainerJSON entries) with
  | Some (_, data) => data
  | None => []
  end.

(** The buffer in the words of the specification: the scan stops at the
    first entry named [container.json] and that entry is what is buffered. *)
Fixpoint firstContainerJSON (tr : tar.Stream) : result bytes :=
  match tr with
  | tar.EOF => Ok []
  | tar.Corrupt e => Err e
  | tar.Entry th body rest =>
      if String.eqb (tar.Name th) "container.json"
      then body
      else firstContainerJSON rest
  end.

(** White space: space, tab, line feed, vertical tab, form feed, carriage
    return. *)
Definition isSpace (c : ascii) : bool :=
  let n := nat_of_ascii c in
  (n =? 32)%nat || ((9 <=? n)%nat && (n <=? 13)%nat).

(** No argument of a command line that was split on white space has white
    space left in it. *)
Definition spaceFree (s : string) : bool :=
  negb (existsb isSpace (list_ascii_of_string s)).


Definition isStdout (ev : Event) : bool :=
  match ev with
  | Stdout _ => true
  | _ => false
  end.

(** An archive whose entries can be read until [Next] fails with [e]. *)
Definition brokenArchive (entries : list (tar.Header * bytes)) (e : error)
  : tar.Stream :=
  fold_right (fun '(h, data) rest => tar.Entry h (Ok data) rest)
             (tar.Corrupt e) entries.

(** The network configuration [createContainer] derives from a backup. *)
Definition networkConfigOf (backup : Backup) : option network.NetworkingConfig :=
  match NetworkSettings backup with
  | Some ns => Some {| network.EndpointsConfig := types.Networks ns |}
  | None => None
  end.

Definition isPlainWrite (ev : Event) : bool :=
  match ev with
  | WriteFile _ _ _ | WriteString _ _ => true
  | _ => false
  end.

Definition isTarWrite (ev : Event) : bool :=
  match ev with
  | TarWriteHeader _ _ | TarWrite _ _ | TarClose _ => true
  | _ => false
  end.

Definition isDaemonChange (ev : Event) : bool :=
  match ev with
  | ContainerCreate _ _ _ _ | ContainerStart _ => true
  | _ => false
  end.

Definition isContainerInspect (ev : Event) : bool :=
  match ev with
  | ContainerInspect _ => true
  | _ => false
  end.

(** A file system on which no write fails. *)
Definition faultless (E : Env) : Prop := forall j, io_fault E j = None.

(** The line [backup] prints once the container is inspected. *)
Definition announced (conf : types.ContainerJSON) (config0 : container.Config)
  : Event :=
  Stdout ("Creating backup of "
          +:+ default "" (slice_from (types.Name conf) 1) +:+ " ("
          +:+ container.Image config0 +:+ ", "
          +:+ default "" (slice_to (types.ID conf) 12) +:+ ")" +:+ nl).

(** The calls [getFullImageName] makes for [imageName]. *)
Definition resolving (imageName : string) : list Event :=
  if strings.Contains imageName ":" then [] else [ImageList].

(** The name [getFullImageName] answers for [imageName] when called after
    the events [j], if it answers one without an error. *)
Definition resolvedImage (E : Env) (imageName : string) (j : list Event)
  : option string :=
  if strings.Contains imageName ":" then Some imageName
  else
    match cli_ImageList E (j ++ [ImageList]) with
    | Ok images => pickTag imageName images
    | Err _ => None
    end.

(** What [backup ID] learns from the daemon when it starts after the events
    [j]: the container is inspected as [conf], whose name and ID are long
    enough to be displayed and whose configuration is [config0], and the
    image of that configuration is resolved to [image]. *)
Definition inspects (E : Env) (j : list Event) (ID : string)
    (conf : types.ContainerJSON) (config0 : container.Config) (image : string)
  : Prop :=
  cli_ContainerInspect E (j ++ [ContainerInspect ID]) = Ok conf /\
  types.Config conf = Some config0 /\
  slice_from (types.Name conf) 1 <> None /\
  slice_to (types.ID conf) 12 <> None /\
  resolvedImage E (container.Image config0)
    (j ++ [ContainerInspect ID; announced conf config0]) = Some image.

(** The world in which [backup ID] assembles its record: the daemon has
    been asked, nothing has been written. *)
Definition asked (w : World) (ID : string) (conf : types.ContainerJSON)
    (config0 : container.Config) : World :=
  {| files := files w;
     journal := journal w ++ [ContainerInspect ID; announced conf config0]
                ++ resolving (container.Image config0);
     paths := [];
     tw := tw w |}.

(** The record [backup] assembles from them. *)
Definition recordOf (conf : types.ContainerJSON) (config0 : container.Config)
    (image : string) : Backup :=
  snapshot conf {| container.Image := image;
                   container.Other := container.Other config0 |}.

(** The events of a plain backup of the document [b] as [stem], up to the
    launch hook. *)
Definition plainEvents (stem : string) (b : bytes) : list Event :=
  [WriteFile (stem +:+ ".backup.json") b (6 * 64);
   OsCreate (stem +:+ ".backup.files");
   WriteString (stem +:+ ".backup.files") (stem +:+ ".backup.json" +:+ nl);
   Stdout ("Created backup: " +:+ stem +:+ ".backup.json" +:+ nl)].

(** The header [backupTar] hands to [WriteHeader] when it starts after the
    events [j]: the clock is read three times once the file is created. *)
Definition handedHeader (E : Env) (j : list Event) (stem : string) (b : bytes)
  : tar.Header :=
  let created := j ++ [OsCreate (stem +:+ ".tar")] in
  {| tar.Name := "container.json";
     tar.Size := Z.of_nat (length b);
     tar.ModTime := time_Now E (created ++ [TimeNow]);
     tar.AccessTime := time_Now E (created ++ [TimeNow; TimeNow]);
     tar.ChangeTime := time_Now E (created ++ [TimeNow; TimeNow; TimeNow]);
     tar.Mode := 6 * 64 |}.



(** The three times of a header, such as an entry of an archive has, next
    to the header of the first entry of an archive. *)
Definition times (h : tar.Header) : list Z :=
  [tar.ModTime h; tar.AccessTime h; tar.ChangeTime h].

Definition firstHeader (tr : tar.Stream) : option tar.Header :=
  match tr with
  | tar.Entry h _ _ => Some h
  | _ => None
  end.




(** ** A test double for the collaborators *)

Module stub.

Definition w0 : World :=
  {| files := ∅; journal := []; paths := []; tw := None |}.

(** The record of the end-to-end scenario. *)
Definition web : Backup :=
  {| Name := "/web-1";
     Config := Some {| container.Image := "nginx"; container.Other := "" |};
     HostConfig := Some {| container.Mounts := []; container.Other' := "" |};
     NetworkSettings := None;
     Platform := "" |}.

Definition webJSON : bytes := list_byte_of_string "<web-1>".

(** A codec that knows one document. *)
Definition marshal (b : Backup) : result bytes :=
  Ok (list_byte_of_string ("<" +:+ strings.Replace (Name b) "/" "" +:+ ">")).

Definition decode (data : bytes) : result Backup :=
  if String.eqb (string_of_list_byte data) "<web-1>"
  then Ok web
  else Err "invalid character looking for beginning of value".

(** A toy archive format: the header is the size in unary, closed by a
    marker byte; the parser reads one entry back. *)
Definition headerBlock (th : tar.Header) : bytes :=
  repeat x01 (Z.to_nat (tar.Size th)) ++ [x02].

Fixpoint unary (content : bytes) : nat * bytes :=
  match content with
  | x01 :: rest => let (n, body) := unary rest in (S n, body)
  | x02 :: rest => (0, rest)
  | _ => (0, [])
  end.

Definition parse (content : bytes) : tar.Stream :=
  match content with
  | [] => tar.EOF
  | _ =>
      let (n, rest) := unary content in
      tar.Entry {| tar.Name := "container.json"; tar.Size := Z.of_nat n;
                   tar.ModTime := 0; tar.AccessTime := 0;
                   tar.ChangeTime := 0; tar.Mode := 6 * 64 |}
                (Ok (firstn n rest)) tar.EOF
  end.

Definition inspected : types.ContainerJSON :=
  {| types.ID := "0123456789abcdef";
     types.Name := "/web-1";
     types.Platform := "linux";
     types.Config := Some {| container.Image := "nginx"; container.Other := "" |};
     types.HostConfig := Some {| container.Mounts := []; container.Other' := "" |};
     types.NetworkSettings_ := None;
     types.Mounts := [] |}.

(** A healthy daemon and file system; the parameters are what the
    examples vary. *)
Definition env (conf : types.ContainerJSON) (launch : string) (tarMode : bool)
    (images : list image.Summary)
    (containers : result (list container.Summary))
    (parser : bytes -> tar.Stream) : Env :=
  {| optLaunch := launch;
     optTar := tarMode;
     optAll := false;
     optStopped := false;
     optVerbose := false;
     optStart := false;
     cli_ContainerInspect := fun _ => Ok conf;
     cli_ImageList := fun _ => Ok images;
     cli_ContainerList := fun _ => containers;
     cli_ContainerCreate := fun _ => Ok {| types.RespID := "fedcba9876543210" |};
     cli_ContainerStart := fun _ => None;
     json_MarshalIndent := marshal;
     json_decode := decode;
     sanitize_Path := fun s => s;
     tar_headerBlock := headerBlock;
     tar_parse := parser;
     time_Now := fun j => Z.of_nat (length j);
     io_fault := fun _ => None;
     exec_Run := fun _ => None |}.

Definition plain : Env := env inspected "" false [] (Ok []) parse.

(** A container whose ID is shorter than the twelve bytes displayed. *)
Definition shortID : types.ContainerJSON :=
  {| types.ID := "0123456789a";
     types.Name := "/web-1";
     types.Platform := "linux";
     types.Config := Some {| container.Image := "nginx"; container.Other := "" |};
     types.HostConfig := None;
     types.NetworkSettings_ := None;
     types.Mounts := [] |}.

Definition tab : string := String (ascii_of_nat 9) EmptyString.

Definition entry (name payload : string) : tar.Header * bytes :=
  ({| tar.Name := name;
      tar.Size := Z.of_nat (String.length payload);
      tar.ModTime := 0; tar.AccessTime := 0; tar.ChangeTime := 0;
      tar.Mode := 6 * 64 |},
   list_byte_of_string payload).

(** An archive to which [container.json] was appended a second time. *)
Definition twice : list (tar.Header * bytes) :=
  [entry "container.json" "<old>"; entry "notes.txt" "n";
   entry "container.json" "<web-1>"].

(** An archive without [container.json]. *)
Definition foreign : list (tar.Header * bytes) :=
  [entry "notes.txt" "n"; entry "Container.json" "<web-1>"].

Definition reading (entries : list (tar.Header * bytes)) : Env :=
  env inspected "" false [] (Ok []) (fun _ => archive entries).

Definition holding (path : string) (content : bytes) : World :=
  {| files := {[ path := content ]}; journal := []; paths := []; tw := None |}.

(** [--launch "notify.sh %tag %list"] *)
Definition notifying : Env :=
  env inspected "notify.sh %tag %list" false [] (Ok []) parse.

(** A launch template whose words are separated by a tab. *)
Definition tabbed : Env :=
  env inspected ("notify.sh" +:+ tab +:+ "%tag") false [] (Ok []) parse.

(** The same collaborators under [--all]. *)
Definition all (E : Env) : Env :=
  {| optLaunch := optLaunch E;
     optTar := optTar E;
     optAll := true;
     optStopped := optStopped E;
     optVerbose := optVerbose E;
     optStart := optStart E;
     cli_ContainerInspect := cli_ContainerInspect E;
     cli_ImageList := cli_ImageList E;
     cli_ContainerList := cli_ContainerList E;
     cli_ContainerCreate := cli_ContainerCreate E;
     cli_ContainerStart := cli_ContainerStart E;
     json_MarshalIndent := json_MarshalIndent E;
     json_decode := json_decode E;
     sanitize_Path := sanitize_Path E;
     tar_headerBlock := tar_headerBlock E;
     tar_parse := tar_parse E;
     time_Now := time_Now E;
     io_fault := io_fault E;
     exec_Run := exec_Run E |}.

(** [backup --all] against a daemon that cannot list its containers. *)
Definition unreachable : Env :=
  all (env inspected "" false []
           (Err "Cannot connect to the Docker daemon") parse).

(** An image list: an untagged build, then a tagged image. *)
Definition untagged : image.Summary :=
  {| image.ID := "web"; image.RepoTags := [] |}.

Definition tagged : image.Summary :=
  {| image.ID := "we"; image.RepoTags := ["nginx:1"; "registry/web:2"] |}.

Definition cataloguing : Env :=
  env inspected "" false [untagged; tagged] (Ok []) parse.

(** The collaborators of [E] with other answers from the daemon and another
    [--start] flag. *)
Definition tuned (inspect : list Event -> result types.ContainerJSON)
    (images : result (list image.Summary))
    (create : result types.CreateResponse)
    (start : bool) (started : option error) (E : Env) : Env :=
  {| optLaunch := optLaunch E;
     optTar := optTar E;
     optAll := optAll E;
     optStopped := optStopped E;
     optVerbose := optVerbose E;
     optStart := start;
     cli_ContainerInspect := inspect;
     cli_ImageList := fun _ => images;
     cli_ContainerList := cli_ContainerList E;
     cli_ContainerCreate := fun _ => create;
     cli_ContainerStart := fun _ => started;
     json_MarshalIndent := json_MarshalIndent E;
     json_decode := json_decode E;
     sanitize_Path := sanitize_Path E;
     tar_headerBlock := tar_headerBlock E;
     tar_parse := tar_parse E;
     time_Now := time_Now E;
     io_fault := io_fault E;
     exec_Run := exec_Run E |}.

(** A daemon that cannot inspect the container [gone]. *)
Definition inspectUnless (gone : string) (j : list Event)
  : result types.ContainerJSON :=
  match last j with
  | Some (ContainerInspect id) =>
      if String.eqb id gone then Err ("No such container: " +:+ gone)
      else Ok inspected
  | _ => Ok inspected
  end.

(** [backup --all] over three containers, the second of which is gone. *)
Definition batch : Env :=
  all (tuned (inspectUnless "b") (Ok [])
             (Ok {| types.RespID := "fedcba9876543210" |}) false None
             (env inspected "" false []
                  (Ok [ {| container.ID := "a" |}; {| container.ID := "b" |};
                        {| container.ID := "c" |} ]) parse)).

(** The scenario's record with two networks attached. *)
Definition networked : Backup :=
  {| Name := "/web-1";
     Config := Config web;
     HostConfig := HostConfig web;
     NetworkSettings :=
       Some {| types.Networks := {[ "bridge" := "172.17.0.2"; "backend" := "10.0.0.5" ]};
               types.Other := "" |};
     Platform := "" |}.

(** The scenario's record with [HostConfig] null. *)
Definition hostless : Backup :=
  {| Name := "/web-1";
     Config := Config web;
     HostConfig := None;
     NetworkSettings := None;
     Platform := "" |}.

(** An image list as the daemon gives it, with digests for IDs. *)
Definition digests : Env :=
  env inspected "" false
      [ {| image.ID := "sha256:4bb46517cac3"; image.RepoTags := ["nginx:latest"] |};
        {| image.ID := "sha256:9c7a54a9a43c"; image.RepoTags := [] |} ]
      (Ok []) parse.

(** *** Doubles that encode as [encoding/json] and read as [archive/tar] *)

(** Docker's structs, reduced to what the model keeps of them. *)
Definition config (c : container.Config) : string :=
  "{ " +:+ json.quote +:+ "Image" +:+ json.quote +:+ ": "
  +:+ json.quoted (container.Image c) +:+ " }".

Definition hostConfig (_ : container.HostConfig) : string := "{}".

Definition networkSettings (_ : types.NetworkSettings) : string := "{}".

Definition MarshalIndent : Backup -> result bytes :=
  json.MarshalIndent config hostConfig networkSettings.

(** The document of a record. *)
Definition document (B : Backup) : bytes :=
  match MarshalIndent B with
  | Ok b => b
  | Err _ => []
  end.

(** A decoder that knows the document of one record. *)
Definition knows (B : Backup) (data : bytes) : result Backup :=
  if String.eqb (string_of_list_byte data) (string_of_list_byte (document B))
  then Ok B
  else Err "invalid character looking for beginning of value".

(** A clock in November 2023 that advances a nanosecond with every event,
    between two whole seconds. *)
Definition clock (j : list Event) : Z :=
  1700000000 * time.Second + 400000000 + Z.min (Z.of_nat (length j)) 500000000.

(** A healthy daemon and file system around the real encoder and reader;
    the decoder is a parameter. *)
Definition go (conf : types.ContainerJSON) (launch : string) (tarMode : bool)
    (decoder : bytes -> result Backup) : Env :=
  {| optLaunch := launch;
     optTar := tarMode;
     optAll := false;
     optStopped := false;
     optVerbose := false;
     optStart := false;
     cli_ContainerInspect := fun _ => Ok conf;
     cli_ImageList := fun _ => Ok [];
     cli_ContainerList := fun _ => Ok [];
     cli_ContainerCreate := fun _ => Ok {| types.RespID := "fedcba9876543210" |};
     cli_ContainerStart := fun _ => None;
     json_MarshalIndent := MarshalIndent;
     json_decode := decoder;
     sanitize_Path := fun s => s;
     tar_headerBlock := headerBlock;
     tar_parse := ustar.Reader;
     time_Now := clock;
     io_fault := fun _ => None;
     exec_Run := fun _ => None |}.

(** The record [backup] assembles of [inspected]. *)
Definition kept : Backup :=
  recordOf inspected {| container.Image := "nginx"; container.Other := "" |}
           "nginx".

Definition archiving : Env := go inspected "" true (knows kept).


(** Two records that differ in one byte of a name that is not UTF-8. *)
Definition named (byte : nat) : Backup :=
  {| Name := "/" +:+ String (ascii_of_nat byte) EmptyString;
     Config := None;
     HostConfig := None;
     NetworkSettings := None;
     Platform := "linux" |}.

(** A container of the image [app] that is backed up as [1], with a launch
    template. *)
Definition app : types.ContainerJSON :=
  {| types.ID := "1a2b3c4d5e6f7a8b";
     types.Name := "/app";
     types.Platform := "linux";
     types.Config := Some {| container.Image := "app"; container.Other := "" |};
     types.HostConfig := Some {| container.Mounts := []; container.Other' := "" |};
     types.NetworkSettings_ := None;
     types.Mounts := [] |}.

Definition launching : Env :=
  env app "notify.sh %tag %list" false [] (Ok []) parse.

(** A container whose image name has a path separator in it. *)
Definition namespaced : types.ContainerJSON :=
  {| types.ID := "0123456789abcdef";
     types.Name := "/web-1";
     types.Platform := "linux";
     types.Config :=
       Some {| container.Image := "library/nginx"; container.Other := "" |};
     types.HostConfig := Some {| container.Mounts := []; container.Other' := "" |};
     types.NetworkSettings_ := None;
     types.Mounts := [] |}.

Definition slashed : Env := env namespaced "" false [] (Ok []) parse.

End stub.

(** * Properties *)

(** ** Strings *)

Lemma append_cons (c : ascii) (p s : string) :
  String c p +:+ s = String c (p +:+ s).
Proof. reflexivity. Qed.

Lemma append_nil (s : string) : EmptyString +:+ s = s.
Proof. reflexivity. Qed.

Lemma substring_all (s : string) : String.substring 0 (String.length s) s = s.
Proof. induction s as [|c s IH]; simpl; [reflexivity | now rewrite IH]. Qed.

Lemma substring_skip (p s : string) (m : nat) :
  String.substring (String.length p) m (p +:+ s) = String.substring 0 m s.
Proof.
  induction p as [|c p IH]; [reflexivity |].
  rewrite append_cons. simpl. exact IH.
Qed.

Lemma substring_split (s : string) (n : nat) :
  (n <= String.length s)%nat ->
  s = String.substring 0 n s +:+ String.substring n (String.length s - n) s.
Proof.
  revert n; induction s as [|c s IH]; intros [|n] Hn; simpl in *;
    try reflexivity; try lia.
  - now rewrite substring_all.
  - rewrite append_cons. f_equal. apply IH. lia.
Qed.

Lemma length_append (p s : string) :
  String.length (p +:+ s) = (String.length p + String.length s)%nat.
Proof.
  induction p as [|c p IH]; [reflexivity |].
  rewrite append_cons. simpl. now rewrite IH.
Qed.

(** [HasSuffix] decides "ends in". *)
Lemma HasSuffix_iff (s suffix : string) :
  strings.HasSuffix s suffix = true <-> exists p, s = p +:+ suffix.
Proof.
  unfold strings.HasSuffix. rewrite andb_true_iff, Nat.leb_le, String.eqb_eq.
  split.
  - intros [Hlen Hsub].
    exists (String.substring 0 (String.length s - String.length suffix) s).
    pose proof (substring_split s (String.length s - String.length suffix)) as H.
    replace (String.length s - (String.length s - String.length suffix))%nat
      with (String.length suffix) in H by lia.
    rewrite Hsub in H. apply H. lia.
  - intros [p ->]. rewrite length_append. split; [lia |].
    replace (String.length p + String.length suffix - String.length suffix)%nat
      with (String.length p) by lia.
    rewrite substring_skip. apply substring_all.
Qed.

Lemma HasSuffix_false (s suffix : string) :
  strings.HasSuffix s suffix = false <-> forall p, s <> p +:+ suffix.
Proof.
  rewrite <- not_true_iff_false, HasSuffix_iff. split.
  - intros H p Hp. apply H. now exists p.
  - intros H [p Hp]. now apply (H p).
Qed.

Lemma list_ascii_of_append (p s : string) :
  list_ascii_of_string (p +:+ s) = list_ascii_of_string p ++ list_ascii_of_string s.
Proof.
  induction p as [|c p IH]; [reflexivity |].
  rewrite append_cons. simpl. now rewrite IH.
Qed.

(** A path cannot end in [".tar"] and in [".json"] at once. *)
Lemma tar_not_json (p q : string) : p +:+ ".tar" <> q +:+ ".json".
Proof.
  intros H. apply (f_equal list_ascii_of_string) in H.
  rewrite !list_ascii_of_append in H.
  apply (f_equal (@last ascii)) in H.
  change (list_ascii_of_string ".tar")
    with (list_ascii_of_string ".ta" ++ ["r"%char]) in H.
  change (list_ascii_of_string ".json")
    with (list_ascii_of_string ".jso" ++ ["n"%char]) in H.
  rewrite !app_assoc, !last_snoc in H. discriminate H.
Qed.

Lemma append_inj (p a b : string) : p +:+ a = p +:+ b -> a = b.
Proof.
  induction p as [|c p IH]; [trivial |].
  rewrite !append_cons. intros [= H]. auto.
Qed.

Lemma filelist_not_artifact (stem : string) :
  stem +:+ ".backup.files" <> stem +:+ ".backup.json".
Proof. intros H. apply append_inj in H. discriminate H. Qed.

(** ** The restore entry point *)

(** C6. [restoreCmd] hands a path ending in [".json"] to [restore] and a
    path ending in [".tar"] to [restoreTar]; every other path gets the
    unknown-file-type error and the world is left exactly as it was: no file
    is opened or read, nothing is journalled. *)
Theorem restoreCmd_by_extension (E : Env) (path : string) (rest : list string)
    (w : World) :
  ((exists stem, path = stem +:+ ".json") ->
     restoreCmd E (path :: rest) w = restore E path w) /\
  ((exists stem, path = stem +:+ ".tar") ->
     restoreCmd E (path :: rest) w = restoreTar E path w) /\
  ((forall stem, path <> stem +:+ ".json") ->
   (forall stem, path <> stem +:+ ".tar") ->
     restoreCmd E (path :: rest) w =
       (Return (Some "unknown file type, please provide a .tar or .json file"), w)).
Proof.
  unfold restoreCmd. repeat split.
  - intros H. apply HasSuffix_iff in H. now rewrite H.
  - intros [stem ->].
    assert (strings.HasSuffix (stem +:+ ".tar") ".json" = false) as ->.
    { apply HasSuffix_false. intros q. apply tar_not_json. }
    assert (strings.HasSuffix (stem +:+ ".tar") ".tar" = true) as ->.
    { apply HasSuffix_iff. now exists stem. }
    reflexivity.
  - intros Hj Ht. apply HasSuffix_false in Hj, Ht. now rewrite Hj, Ht.
Qed.

Lemma restoreCmd_by_extension_witness :
  restoreCmd stub.plain ["backup.zip"] stub.w0 =
    (Return (Some "unknown file type, please provide a .tar or .json file"),
     stub.w0).
Proof.
  apply (proj2 (proj2 (restoreCmd_by_extension stub.plain "backup.zip" []
                         stub.w0))).
  - apply HasSuffix_false. reflexivity.
  - apply HasSuffix_false. reflexivity.
Defined.

(** ** Running computations *)

Ltac run :=
  cbv beta iota delta
    [bind ret panic emit call getFile putFile appendFile setPaths getPaths
     setTw getTw fmt_Print sliceOrPanic deref now exec_Command_Run
     os_Create os_Open ioutil_WriteFile ioutil_ReadFile File_WriteString
     tar_NewReader tar_NewWriter tar_WriteHeader tar_Write tar_Close];
  cbn [files journal paths tw fst snd
       tar.wr_path tar.wr_remaining tar.wr_pad tar.Size tar.Name].

(** Case analysis on the next answer of a collaborator. *)
Ltac branch :=
  match goal with
  | |- context [match ?x with _ => _ end] =>
      match type of x with
      | result _ => destruct x eqn:?
      | option _ => destruct x eqn:?
      | bool => destruct x eqn:?
      | list _ => destruct x eqn:?
      end
  end.

Ltac explore := repeat (first [progress run | branch]).

(** Bring journals to one right-nested list. *)
Ltac flat :=
  repeat (progress (cbn [app files journal paths tw]; rewrite <- ?app_assoc)).

Lemma slice_to_short (s : string) (hi : nat) :
  (String.length s < hi)%nat -> slice_to s hi = None.
Proof.
  intros H. unfold slice_to.
  destruct (Nat.leb_spec hi (String.length s)); [lia | reflexivity].
Qed.

Lemma slice_to_long (s : string) (hi : nat) :
  (hi <= String.length s)%nat -> exists s', slice_to s hi = Some s'.
Proof.
  intros H. unfold slice_to.
  destruct (Nat.leb_spec hi (String.length s)); [eauto | lia].
Qed.

Lemma slice_from_1 (s : string) :
  slice_from s 1 = None <-> s = "".
Proof. destruct s; simpl; split; intros H; try reflexivity; discriminate H. Qed.

Lemma startContainer_short (E : Env) (id : string) (w : World) :
  (String.length id < 12)%nat ->
  startContainer E id w = (Panic "slice bounds out of range", w).
Proof.
  intros H. unfold startContainer. rewrite (slice_to_short _ _ H). reflexivity.
Qed.

Lemma startContainer_long (E : Env) (id : string) (w : World) :
  (12 <= String.length id)%nat ->
  exists w', startContainer E id w =
               (Return (cli_ContainerStart E (journal w')), w').
Proof.
  intros H. unfold startContainer.
  destruct (slice_to_long _ _ H) as [id12 ->]. run.
  match goal with |- exists w', ?lhs = _ => exists (snd lhs) end.
  destruct (cli_ContainerStart E _) eqn:Hstart; cbn [snd journal];
    now rewrite Hstart.
Qed.

Lemma backup_short (E : Env) (ID : string) (w : World) (conf : types.ContainerJSON) :
  cli_ContainerInspect E (journal w ++ [ContainerInspect ID]) = Ok conf ->
  types.Name conf = "" \/ (String.length (types.ID conf) < 12)%nat ->
  exists v w',
    backup E ID w = (Panic v, w') /\
    (types.Config conf <> None -> v = "slice bounds out of range").
Proof.
  intros Hconf Hshort. unfold backup. run. rewrite Hconf.
  destruct (slice_from (types.Name conf) 1) as [name1|] eqn:Hname; run;
    [| eauto].
  destruct (types.Config conf) as [config|]; run;
    [| eexists _, _; split; [reflexivity | congruence]].
  destruct Hshort as [Hempty | Hid].
  - apply slice_from_1 in Hempty. congruence.
  - rewrite (slice_to_short _ _ Hid). run. eauto.
Qed.

(** ** Image-tag resolution *)

Section Resolution.
Variable imageName : string.

Lemma closerTag_hit (pre post : list string) (tag : string) :
  Forall (misses imageName) pre -> strings.Contains tag imageName = true ->
  closerTag imageName (pre ++ tag :: post) = Some tag.
Proof.
  intros Hpre Htag. induction Hpre as [|t pre Ht _ IH]; simpl.
  - now rewrite Htag.
  - unfold misses in Ht. now rewrite Ht.
Qed.

Lemma closerTag_miss (tags : list string) :
  Forall (misses imageName) tags -> closerTag imageName tags = None.
Proof.
  induction 1 as [|t tags Ht _ IH]; simpl; [reflexivity |].
  unfold misses in Ht. now rewrite Ht.
Qed.

Lemma pickTag_skip (skipped rest : list image.Summary) :
  Forall (skippable imageName) skipped ->
  pickTag imageName (skipped ++ rest) = pickTag imageName rest.
Proof.
  induction 1 as [|img skipped Himg _ IH]; simpl; [reflexivity |].
  destruct Himg as [-> | ->]; simpl; [exact IH |].
  now rewrite orb_true_r.
Qed.

Lemma pickTag_unrelated (images : list image.Summary) :
  Forall (fun img => strings.Contains imageName (image.ID img) = false) images ->
  pickTag imageName images = Some imageName.
Proof.
  induction 1 as [|img images Himg _ IH]; simpl; [reflexivity |].
  now rewrite Himg.
Qed.

Lemma pickTag_related (img : image.Summary) (rest : list image.Summary) :
  strings.Contains imageName (image.ID img) = true ->
  image.RepoTags img <> [] ->
  pickTag imageName (img :: rest) =
    match closerTag imageName (image.RepoTags img) with
    | Some tag => Some tag
    | None => head (image.RepoTags img)
    end.
Proof.
  intros Hid Htags. simpl. rewrite Hid.
  destruct (image.RepoTags img) as [|tag0 tags]; [congruence | reflexivity].
Qed.

(** C2. A name with a [":"] is returned as it is, without asking the
    daemon.  Otherwise the image list is fetched; the first entry whose ID
    occurs in the name and that has tags decides: the result is its first
    tag containing the name, or its first tag if none does.  When no
    entry's ID occurs in the name, the name is returned unchanged. *)
Theorem getFullImageName_resolution (E : Env) (w : World) :
  (strings.Contains imageName ":" = true ->
     getFullImageName E imageName w = (Return (imageName, None), w)) /\
  (strings.Contains imageName ":" = false ->
   forall images, cli_ImageList E (journal w ++ [ImageList]) = Ok images ->
     (forall skipped img rest,
        images = skipped ++ img :: rest ->
        Forall (skippable imageName) skipped ->
        strings.Contains imageName (image.ID img) = true ->
        (forall pre tag post,
           image.RepoTags img = pre ++ tag :: post ->
           Forall (misses imageName) pre ->
           strings.Contains tag imageName = true ->
           getFullImageName E imageName w =
             (Return (tag, None), logged w [ImageList])) /\
        (forall tag0 tags,
           image.RepoTags img = tag0 :: tags ->
           Forall (misses imageName) (tag0 :: tags) ->
           getFullImageName E imageName w =
             (Return (tag0, None), logged w [ImageList]))) /\
     (Forall (fun img => strings.Contains imageName (image.ID img) = false)
             images ->
      getFullImageName E imageName w =
        (Return (imageName, None), logged w [ImageList]))).
Proof.
  unfold getFullImageName. split; [intros ->; reflexivity |].
  intros -> images Himages. run. rewrite Himages. split.
  - intros skipped img rest -> Hskip Hid.
    rewrite (pickTag_skip _ _ Hskip). split.
    + intros pre tag post Htags Hpre Htag.
      rewrite pickTag_related, Htags, (closerTag_hit _ _ _ Hpre Htag);
        [reflexivity | assumption |].
      rewrite Htags. now destruct pre.
    + intros tag0 tags Htags Hmiss.
      rewrite pickTag_related, (closerTag_miss _), Htags;
        [reflexivity | now rewrite Htags | assumption |].
      now rewrite Htags.
  - intros Hnone. now rewrite (pickTag_unrelated _ Hnone).
Qed.

End Resolution.

Lemma getFullImageName_resolution_witness :
  getFullImageName stub.cataloguing "web" stub.w0 =
    (Return ("registry/web:2", None), logged stub.w0 [ImageList]) /\
  getFullImageName stub.cataloguing "nginx:1" stub.w0 =
    (Return ("nginx:1", None), stub.w0).
Proof.
  split.
  - refine (proj1 (proj1 (proj2 (getFullImageName_resolution
                                   "web" stub.cataloguing stub.w0)
                                eq_refl [stub.untagged; stub.tagged] eq_refl)
                         [stub.untagged] stub.tagged [] eq_refl _ eq_refl)
                  ["nginx:1"] "registry/web:2" [] eq_refl _ eq_refl).
    + constructor; [right; reflexivity | constructor].
    + constructor; [reflexivity | constructor].
  - apply (proj1 (getFullImageName_resolution "nginx:1" stub.cataloguing stub.w0)).
    reflexivity.
Defined.

(** ** Reading the archive *)

Lemma scanTar_archive (entries : list (tar.Header * bytes)) (b : bytes) :
  scanTar (archive entries) b =
    Ok (match last (List.filter isContainerJSON entries) with
        | Some (_, data) => data
        | None => b
        end).
Proof.
  revert b; induction entries as [|[h data] entries IH]; intros b; simpl;
    [reflexivity |].
  unfold isContainerJSON at 1; simpl.
  destruct (String.eqb (tar.Name h) "container.json"); [| apply IH].
  rewrite IH, last_cons.
  now destruct (last (List.filter isContainerJSON entries)) as [[]|].
Qed.

(** A stream that [Next] or the body of a [container.json] entry breaks
    aborts the scan with that error, whatever was buffered before. *)
Lemma scanTar_corrupt (entries : list (tar.Header * bytes)) (e : error) (b : bytes) :
  scanTar (fold_right (fun '(h, data) rest => tar.Entry h (Ok data) rest)
                      (tar.Corrupt e) entries) b = Err e.
Proof.
  revert b; induction entries as [|[h data] entries IH]; intros b; simpl;
    [reflexivity |].
  destruct (String.eqb (tar.Name h) "container.json"); apply IH.
Qed.

(** C3, as the code has it.  [restoreTar] reads the archive to its end: of
    the entries named [container.json] the last one read is the buffer that
    is deserialized, every other entry is ignored; with no such entry the
    buffer is empty, deserialization fails and that error is the result,
    without a call to the daemon. *)
Theorem restoreTar_reads_whole_archive (E : Env) (filename : string)
    (content : bytes) (entries : list (tar.Header * bytes)) (w : World) :
  files w !! filename = Some content ->
  tar_parse E content = archive entries ->
  loadTar E filename w =
    (Return (json_Unmarshal E (lastContainerJSON entries)),
     logged w [OsOpen filename]) /\
  (List.filter isContainerJSON entries = [] ->
   restoreTar E filename w =
     (Return (Some "unexpected end of JSON input"), logged w [OsOpen filename])).
Proof.
  intros Hfile Hparse.
  assert (loadTar E filename w =
            (Return (json_Unmarshal E (lastContainerJSON entries)),
             logged w [OsOpen filename])) as Hload.
  { unfold loadTar. run. rewrite Hfile. run. rewrite Hfile. cbn [default id].
    rewrite Hparse, scanTar_archive. reflexivity. }
  split; [exact Hload |].
  intros Hnone. unfold restoreTar, bind. rewrite Hload.
  unfold lastContainerJSON. rewrite Hnone. reflexivity.
Qed.

Lemma restoreTar_reads_whole_archive_witness :
  loadTar (stub.reading stub.twice) "b.tar" (stub.holding "b.tar" []) =
    (Return (Ok stub.web), logged (stub.holding "b.tar" []) [OsOpen "b.tar"]) /\
  restoreTar (stub.reading stub.foreign) "b.tar" (stub.holding "b.tar" []) =
    (Return (Some "unexpected end of JSON input"),
     logged (stub.holding "b.tar" []) [OsOpen "b.tar"]).
Proof.
  split.
  - apply (restoreTar_reads_whole_archive
             (stub.reading stub.twice) "b.tar" [] stub.twice
             (stub.holding "b.tar" [])); reflexivity.
  - apply (restoreTar_reads_whole_archive
             (stub.reading stub.foreign) "b.tar" [] stub.foreign
             (stub.holding "b.tar" [])); reflexivity.
Defined.

(** C3, as the specification words it, fails on an archive that holds
    [container.json] twice: the record restored comes from the second copy,
    while the first one found does not even decode. *)
Lemma restoreTar_not_first_found :
  fst (loadTar (stub.reading stub.twice) "b.tar" (stub.holding "b.tar" [])) <>
    Return (match firstContainerJSON (archive stub.twice) with
            | Ok b => json_Unmarshal (stub.reading stub.twice) b
            | Err e => Err e
            end).
Proof. vm_compute. discriminate. Qed.

(** ** The header block *)

















Lemma sum_app (a b : bytes) : ustar.sum (a ++ b) = (ustar.sum a + ustar.sum b)%Z.
Proof.
  induction a as [|c a IH]; [reflexivity |].
  cbn [app ustar.sum fold_right] in *. fold (ustar.sum (a ++ b)). fold (ustar.sum a).
  lia.
Qed.












(** ** The tar artifact *)







Example backupTar_times :
  option_map times
    (firstHeader
       (ustar.Reader
          (default [] (files (snd (backupTar stub.archiving "web" stub.kept stub.w0))
                         !! "web.tar"))))
    = Some [(1700000000 * time.Second)%Z; time.zero; time.zero] /\
  times (handedHeader stub.archiving [] "web" (stub.document stub.kept))
    = [1700000000400000002; 1700000000400000003; 1700000000400000004]%Z.
Proof. split; vm_compute; reflexivity. Qed.

(** ** Creating the container *)

Lemma Split_nonempty (s sep : string) :
  sep <> "" -> exists p ps, strings.Split s sep = p :: ps.
Proof.
  intros H. destruct sep; [congruence |]. unfold strings.Split.
  destruct (strings.splitFrom _ 0 s). eauto.
Qed.

(** The endpoint map handed to the daemon is the one of the backup. *)
Lemma copyEndpoints_id (networks : gmap string network.EndpointSettings) :
  copyEndpoints networks = networks.
Proof.
  unfold copyEndpoints.
  apply (map_fold_weak_ind (fun ep m => ep = m)); [reflexivity |].
  intros k v m ep _ ->. reflexivity.
Qed.

Lemma forEach_prints {A} (P : Event -> Prop) (xs : list A)
    (body : A -> M unit) (line : A -> string) (w : World) :
  (forall x w, body x w = (Return tt, logged w [Stdout (line x)])) ->
  (forall text, P (Stdout text)) ->
  exists evs, forEach xs body w = (Return tt, logged w evs) /\ Forall P evs.
Proof.
  intros Hbody HP. revert w; induction xs as [|x xs IH]; intros w; simpl.
  - exists []. unfold ret, logged. rewrite app_nil_r. now destruct w.
  - unfold bind. rewrite Hbody.
    destruct (IH (logged w [Stdout (line x)])) as (evs & -> & Hevs).
    exists (Stdout (line x) :: evs). split; [| now constructor].
    unfold logged; cbn [files journal paths tw]. now rewrite <- app_assoc.
Qed.

Ltac prints P line :=
  match goal with
  | |- context [forEach ?xs ?body ?w0] =>
      let evs := fresh "evs" in
      let Hrun := fresh "Hrun" in
      let Hevs := fresh "Hevs" in
      destruct (forEach_prints P xs body line w0) as (evs & Hrun & Hevs);
      [intros; reflexivity | reflexivity | rewrite Hrun; clear Hrun]
  end.

(** C5. A backup without [NetworkSettings] is restored without a network
    configuration: whatever the daemon answers, [createContainer] announces
    the container and then calls [ContainerCreate] once, with the backup's
    [Config] and [HostConfig], a nil [networkConfig], and the last segment of
    the backup's [Name].  For the record [/web-1] of the end-to-end
    scenario that name is [web-1]. *)
Theorem createContainer_without_network (E : Env) :
  (forall backup w,
     NetworkSettings backup = None ->
     exists name rest,
       last (strings.Split (Name backup) "/") = Some name /\
       journal (snd (createContainer E backup w)) =
         journal w ++
         Stdout ("Restoring Container: " +:+ name +:+ nl)
         :: ContainerCreate (Config backup) (HostConfig backup) None name
         :: rest /\
       Forall (fun ev => isContainerCreate ev = false) rest) /\
  (forall w,
     exists rest,
       journal (snd (createContainer E stub.web w)) =
         journal w ++
         Stdout ("Restoring Container: web-1" +:+ nl)
         :: ContainerCreate
              (Some {| container.Image := "nginx"; container.Other := "" |})
              (Some {| container.Mounts := []; container.Other' := "" |})
              None "web-1"
         :: rest).
Proof.
  assert (forall backup w,
     NetworkSettings backup = None ->
     exists name rest,
       last (strings.Split (Name backup) "/") = Some name /\
       journal (snd (createContainer E backup w)) =
         journal w ++
         Stdout ("Restoring Container: " +:+ name +:+ nl)
         :: ContainerCreate (Config backup) (HostConfig backup) None name
         :: rest /\
       Forall (fun ev => isContainerCreate ev = false) rest) as General.
  { intros backup w Hnet. unfold createContainer, lastPart. rewrite Hnet.
    destruct (Split_nonempty (Name backup) "/") as (p & ps & ->); [discriminate |].
    rewrite last_cons.
    set (name := match last ps with Some y => y | None => p end).
    assert (match last ps with Some y => Some y | None => Some p end = Some name)
      as -> by (subst name; now destruct (last ps)).
    exists name. run.
    destruct (cli_ContainerCreate E _) as [resp | e]; run.
    2: { exists []. rewrite <- app_assoc. now repeat split. }
    destruct (HostConfig backup) as [hc |]; run.
    2: { eexists [_]. rewrite <- !app_assoc. repeat split. now repeat constructor. }
    prints (fun ev => isContainerCreate ev = false)
           (fun m => "Old Mount (type " +:+ mount.Type_ m +:+ ") "
                     +:+ mount.Source m +:+ " -> " +:+ mount.Target m +:+ nl).
    unfold logged; run.
    destruct (cli_ContainerInspect E _) as [conf | e]; run.
    2: { eexists. rewrite <- !app_assoc. cbn [app]. repeat split.
         repeat constructor. apply Forall_app. split; [eassumption |].
         now repeat constructor. }
    prints (fun ev => isContainerCreate ev = false)
           (fun m => "New Mount (type " +:+ types.Type_ m +:+ ") "
                     +:+ types.Source m +:+ " -> " +:+ types.Destination m +:+ nl).
    unfold logged; cbn [snd journal].
    eexists. rewrite <- !app_assoc. cbn [app]. repeat split.
    repeat constructor. apply Forall_app. split; [eassumption |].
    constructor; [reflexivity |]. assumption. }
  split; [exact General |].
  intros w. destruct (General stub.web w eq_refl) as (name & rest & Hname & Hj & _).
  exists rest. vm_compute in Hname. injection Hname as <-. exact Hj.
Qed.

Lemma createContainer_without_network_witness :
  exists rest,
    journal (snd (createContainer stub.plain stub.web stub.w0)) =
      Stdout ("Restoring Container: web-1" +:+ nl)
      :: ContainerCreate (Config stub.web) (HostConfig stub.web) None "web-1"
      :: rest.
Proof.
  destruct (proj1 (createContainer_without_network stub.plain)
              stub.web stub.w0 eq_refl)
    as (name & rest & Hname & Hj & _).
  exists rest. vm_compute in Hname. injection Hname as <-. exact Hj.
Defined.

(** ** Slicing the name and the ID *)

Lemma pickTag_total (imageName : string) (images : list image.Summary) :
  exists tag, pickTag imageName images = Some tag.
Proof.
  induction images as [|img images IH]; simpl; [eauto |].
  destruct (negb (strings.Contains imageName (image.ID img))); simpl; [exact IH |].
  destruct (image.RepoTags img) as [|tag0 tags]; simpl; [exact IH |].
  destruct (negb (strings.Contains tag0 imageName)); [| eauto].
  destruct (closerTag imageName tags); eauto.
Qed.

(** Past the first [Printf], [backup] cannot panic. *)
Lemma backup_total (E : Env) (ID : string) (w : World) (conf : types.ContainerJSON) :
  cli_ContainerInspect E (journal w ++ [ContainerInspect ID]) = Ok conf ->
  types.Name conf <> "" ->
  types.Config conf <> None ->
  (12 <= String.length (types.ID conf))%nat ->
  exists r w', backup E ID w = (Return r, w').
Proof.
  intros Hconf Hname Hcfg Hid. unfold backup. run. rewrite Hconf.
  destruct (slice_from (types.Name conf) 1) as [name1|] eqn:Hn;
    [| apply slice_from_1 in Hn; contradiction].
  destruct (types.Config conf) as [config|]; [| contradiction].
  destruct (slice_to_long _ _ Hid) as [id12 ->]. run.
  unfold getFullImageName, backupTar, launchHook, writePaths.
  pose proof (pickTag_total (container.Image config)) as Hpick.
  explore; try (eexists; eexists; reflexivity).
  all: match goal with
       | H : pickTag _ ?images = None |- _ =>
           destruct (Hpick images) as [tag Htag]; congruence
       | H : strings.Split ?s " " = [] |- _ =>
           destruct (Split_nonempty s " ") as (p & ps & Hs);
           [discriminate | congruence]
       | _ => idtac
       end.
Qed.

(** C10. The displayed slices are unchecked.  If the inspected name is
    empty or the inspected ID is shorter than twelve bytes, [backup] panics
    (with the slice-bounds panic whenever [Config] is there to be read) and
    returns no error; with a non-empty name, an ID of at least twelve bytes
    and a [Config] it always returns.  [startContainer] panics on an ID
    shorter than twelve bytes and otherwise returns what [ContainerStart]
    answered. *)
Theorem slices_need_long_enough_strings (E : Env) :
  (forall ID w conf,
     cli_ContainerInspect E (journal w ++ [ContainerInspect ID]) = Ok conf ->
     types.Name conf = "" \/ (String.length (types.ID conf) < 12)%nat ->
     exists v w',
       backup E ID w = (Panic v, w') /\
       (types.Config conf <> None -> v = "slice bounds out of range")) /\
  (forall ID w conf,
     cli_ContainerInspect E (journal w ++ [ContainerInspect ID]) = Ok conf ->
     types.Name conf <> "" ->
     types.Config conf <> None ->
     (12 <= String.length (types.ID conf))%nat ->
     exists r w', backup E ID w = (Return r, w')) /\
  (forall id w,
     (String.length id < 12)%nat ->
     startContainer E id w = (Panic "slice bounds out of range", w)) /\
  (forall id w,
     (12 <= String.length id)%nat ->
     exists w', startContainer E id w =
                  (Return (cli_ContainerStart E (journal w')), w')).
Proof.
  repeat split.
  - apply backup_short.
  - apply backup_total.
  - apply startContainer_short.
  - apply startContainer_long.
Qed.

Lemma slices_need_long_enough_strings_witness :
  (exists w',
     backup (stub.env stub.shortID "" false [] (Ok []) stub.parse) "web"
            stub.w0 = (Panic "slice bounds out of range", w')) /\
  (exists r w', backup stub.plain "web" stub.w0 = (Return r, w')) /\
  startContainer stub.plain "0123456789a" stub.w0 =
    (Panic "slice bounds out of range", stub.w0) /\
  (exists w', startContainer stub.plain "0123456789ab" stub.w0 = (Return None, w')).
Proof.
  pose proof (slices_need_long_enough_strings
                (stub.env stub.shortID "" false [] (Ok []) stub.parse))
    as (Hshort & _).
  pose proof (slices_need_long_enough_strings stub.plain)
    as (_ & Hlong & Hstart & Hstarted).
  split; [| split; [| split]].
  - destruct (Hshort "web" stub.w0 stub.shortID eq_refl) as (v & w' & Hrun & Hv).
    + right. vm_compute. lia.
    + exists w'. rewrite Hrun, Hv; [reflexivity | discriminate].
  - apply (Hlong "web" stub.w0 stub.inspected eq_refl).
    + discriminate.
    + discriminate.
    + vm_compute. lia.
  - apply Hstart. vm_compute. lia.
  - destruct (Hstarted "0123456789ab" stub.w0) as (w' & Hrun).
    + vm_compute. lia.
    + exists w'. exact Hrun.
Defined.

(** ** Artifact names *)

Lemma prefix_empty (s : string) : String.prefix "" s = true.
Proof. now destruct s. Qed.

Lemma Contains_slash_cons (a : ascii) (s : string) :
  strings.Contains (String a s) "/" =
    (if ascii_dec "/" a then true else strings.Contains s "/").
Proof.
  cbn [strings.Contains String.prefix].
  destruct (ascii_dec "/" a); [now rewrite prefix_empty | reflexivity].
Qed.

Lemma Contains_slash_append (a b : string) :
  strings.Contains a "/" = false ->
  strings.Contains b "/" = false ->
  strings.Contains (a +:+ b) "/" = false.
Proof.
  intros Ha Hb. induction a as [|c a IH]; [exact Hb |].
  rewrite append_cons, Contains_slash_cons in *.
  destruct (ascii_dec "/" c); [discriminate | auto].
Qed.

Lemma Contains_slash_Replace (s : string) :
  strings.Contains (strings.Replace s "/" "_") "/" = false.
Proof.
  unfold strings.Replace.
  induction s as [|c s IH]; [reflexivity |].
  cbn [strings.replaceFrom String.prefix String.length Nat.sub].
  destruct (ascii_dec "/" c) as [<- | Hc].
  - rewrite prefix_empty. change ("_" +:+ ?x) with (String "_" x).
    rewrite Contains_slash_cons. destruct (ascii_dec "/" "_"); [discriminate | exact IH].
  - rewrite Contains_slash_cons. destruct (ascii_dec "/" c); [contradiction | exact IH].
Qed.

Lemma artifactStem_slash_free (E : Env) (image ID ext : string) :
  strings.Contains ext "/" = false ->
  strings.Contains (artifactStem E image ID +:+ ext) "/" = false.
Proof. intros H. apply Contains_slash_append; [apply Contains_slash_Replace | exact H]. Qed.

(** ** The files of a backup *)

(** What the branches of a run of [backup] have learnt from the daemon. *)
Ltac inspected :=
  unfold inspects, resolvedImage, announced;
  repeat match goal with
         | H : slice_from _ _ = Some _ |- _ => rewrite H; clear H
         | H : slice_to _ _ = Some _ |- _ => rewrite H; clear H
         | H : cli_ImageList _ _ = _ |- _ =>
             rewrite <- ?app_assoc in H; cbn [app] in H; revert H
         end;
  intros; cbn [default id]; rewrite <- ?app_assoc; cbn [app];
  repeat match goal with
         | |- _ /\ _ => split
         | |- Some _ <> None => discriminate
         | |- cli_ContainerInspect _ _ = _ => eassumption
         | |- types.Config _ = _ => eassumption
         | H : strings.Contains _ ":" = _ |- _ => rewrite H; clear H
         | H : cli_ImageList _ _ = _ |- _ => rewrite H; clear H
         | |- Some _ = Some _ => reflexivity
         | |- pickTag _ _ = _ => eassumption
         end.

Lemma backup_file_events (E : Env) (ID : string) (w : World) :
  exists evs,
    journal (snd (backup E ID w)) = journal w ++ evs /\
    Forall (fun ev =>
              forall p, eventPath ev = Some p ->
                exists conf config0 image,
                  inspects E (journal w) ID conf config0 image /\
                  if optTar E
                  then p = artifactStem E image ID +:+ ".tar" /\
                       isPlainWrite ev = false
                  else (p = artifactStem E image ID +:+ ".backup.json" \/
                        p = artifactStem E image ID +:+ ".backup.files") /\
                       isTarWrite ev = false) evs.
Proof.
  unfold backup, getFullImageName, backupTar, launchHook, writePaths.
  explore; cbn [snd journal]; flat;
    (eexists; split; [reflexivity |]);
    repeat (apply List.Forall_cons;
            [cbn [eventPath]; intros p' Hp';
             first [ discriminate Hp'
                   | injection Hp' as <-;
                     eexists _, _, _; split; [solve [inspected] |];
                     cbn [isPlainWrite isTarWrite container.Image]; tauto ] |]);
    apply List.Forall_nil.
Qed.

Lemma backup_success_events (E : Env) (ID : string) (w : World) :
  fst (backup E ID w) = Return None ->
  exists conf config0 image evs b,
    inspects E (journal w) ID conf config0 image /\
    journal (snd (backup E ID w)) = journal w ++ evs /\
    json_MarshalIndent E (recordOf conf config0 image) = Ok b /\
    if optTar E
    then In (OsCreate (artifactStem E image ID +:+ ".tar")) evs /\
         In (TarWrite (artifactStem E image ID +:+ ".tar") b) evs
    else In (WriteFile (artifactStem E image ID +:+ ".backup.json") b (6 * 64)) evs /\
         In (OsCreate (artifactStem E image ID +:+ ".backup.files")) evs /\
         In (WriteString (artifactStem E image ID +:+ ".backup.files")
               (artifactStem E image ID +:+ ".backup.json" +:+ nl)) evs.
Proof.
  unfold backup, getFullImageName, backupTar, launchHook, writePaths, recordOf.
  explore; cbn [fst snd journal]; intros Hret; try discriminate Hret; flat;
    eexists _, _, _, _, _; (split; [solve [inspected] |]);
    (split; [reflexivity |]); (split; [eassumption |]);
    cbn [In container.Image]; tauto.
Qed.

Lemma stem_tar_not_plain (stem : string) :
  stem +:+ ".tar" <> stem +:+ ".backup.json" /\
  stem +:+ ".tar" <> stem +:+ ".backup.files".
Proof. split; intros H; apply append_inj in H; discriminate H. Qed.

(** C7. Every file [backup ID] creates or writes, in either mode and
    however the run ends, is named after the container it inspected: the
    name is the sanitized ["<image>-<ID>"], [image] being the resolved
    image of that container, with every ["/"] replaced by ["_"], followed
    by [".tar"], [".backup.json"] or [".backup.files"]; it holds no ["/"].
    And a backup that returns no error did create its artifacts under
    these names. *)
Theorem backup_artifact_names (E : Env) (ID : string) (w : World) :
  exists evs,
    journal (snd (backup E ID w)) = journal w ++ evs /\
    Forall (fun ev =>
              forall p, eventPath ev = Some p ->
                exists conf config0 image ext,
                  inspects E (journal w) ID conf config0 image /\
                  p = strings.Replace
                        (sanitize_Path E (image +:+ "-" +:+ ID)) "/" "_" +:+ ext /\
                  In ext [".tar"; ".backup.json"; ".backup.files"] /\
                  strings.Contains p "/" = false) evs /\
    (fst (backup E ID w) = Return None ->
     exists conf config0 image,
       inspects E (journal w) ID conf config0 image /\
       let stem :=
         strings.Replace (sanitize_Path E (image +:+ "-" +:+ ID)) "/" "_" in
       if optTar E
       then In (OsCreate (stem +:+ ".tar")) evs
       else (exists b, In (WriteFile (stem +:+ ".backup.json") b (6 * 64)) evs) /\
            In (OsCreate (stem +:+ ".backup.files")) evs).
Proof.
  destruct (backup_file_events E ID w) as (evs & Hj & Hevs).
  exists evs. split; [exact Hj |]. split.
  - eapply List.Forall_impl; [| exact Hevs]. cbv beta.
    intros ev Hev p Hp.
    destruct (Hev p Hp) as (conf & config0 & image & Hinspects & Hmode).
    exists conf, config0, image.
    destruct (optTar E).
    + destruct Hmode as [-> _]. exists ".tar".
      split; [exact Hinspects |]. split; [reflexivity |].
      split; [cbn [In]; tauto | apply artifactStem_slash_free; reflexivity].
    + destruct Hmode as [[-> | ->] _].
      * exists ".backup.json".
        split; [exact Hinspects |]. split; [reflexivity |].
        split; [cbn [In]; tauto | apply artifactStem_slash_free; reflexivity].
      * exists ".backup.files".
        split; [exact Hinspects |]. split; [reflexivity |].
        split; [cbn [In]; tauto | apply artifactStem_slash_free; reflexivity].
  - intros Hret.
    destruct (backup_success_events E ID w Hret)
      as (conf & config0 & image & evs' & b & Hinspects & Hj' & _ & Hmode).
    rewrite Hj in Hj'. apply app_inv_head in Hj'. subst evs'.
    exists conf, config0, image. split; [exact Hinspects |]. cbv zeta.
    fold (artifactStem E image ID).
    destruct (optTar E); [tauto |]. split; [exists b |]; tauto.
Qed.

Lemma backup_artifact_names_witness :
  In (WriteFile "library_nginx-web.backup.json"
        (list_byte_of_string "<web-1>") (6 * 64))
     (journal (snd (backup stub.slashed "web" stub.w0))) /\
  strings.Contains "library_nginx-web.backup.json" "/" = false.
Proof.
  destruct (backup_artifact_names stub.slashed "web" stub.w0)
    as (evs & Hj & Hevs & _).
  cbn [journal stub.w0 app] in Hj. rewrite Hj.
  assert (In (WriteFile "library_nginx-web.backup.json"
                (list_byte_of_string "<web-1>") (6 * 64)) evs) as Hin
    by (rewrite <- Hj; vm_compute; tauto).
  split; [exact Hin |].
  destruct (proj1 (List.Forall_forall _ _) Hevs _ Hin _ eq_refl)
    as (_ & _ & _ & _ & _ & _ & _ & Hslash).
  exact Hslash.
Defined.

(** ** The launch hook *)

Lemma eqb_empty (s : string) : s <> "" -> String.eqb s "" = false.
Proof. intros H. now apply String.eqb_neq. Qed.

Ltac asking Hconf Hcfg Hname Hid Himage :=
  unfold backup, asked, announced, resolving; run; rewrite Hconf; run;
  unfold resolvedImage, announced in Himage;
  destruct (slice_from (types.Name _) 1) as [name1 |]; [| congruence];
  destruct (slice_to (types.ID _) 12) as [id12 |]; [| congruence];
  cbn [default id] in Himage; rewrite Hcfg; run;
  unfold getFullImageName;
  destruct (strings.Contains (container.Image _) ":");
  [ injection Himage as <-
  | run; rewrite <- ?app_assoc in Himage; rewrite <- ?app_assoc;
    cbn [app] in Himage |- *;
    revert Himage; destruct (cli_ImageList _ _) as [images | e];
    [| discriminate]; intros Himage; run; rewrite Himage ];
  run; rewrite <- ?app_assoc; cbn [app default].


Lemma backup_plain_run (E : Env) (ID : string) (w : World)
    (conf : types.ContainerJSON) (config0 : container.Config) (image : string)
    (b : bytes) :
  optTar E = false ->
  faultless E ->
  inspects E (journal w) ID conf config0 image ->
  json_MarshalIndent E (recordOf conf config0 image) = Ok b ->
  let stem := artifactStem E image ID in
  backup E ID w =
    launchHook E stem
      {| files := <[stem +:+ ".backup.files" :=
                      list_byte_of_string (stem +:+ ".backup.json" +:+ nl)]>
                    (<[stem +:+ ".backup.json" := b]> (files w));
         journal := journal (asked w ID conf config0) ++ plainEvents stem b;
         paths := [];
         tw := tw w |}.
Proof.
  intros Htar Hfault (Hconf & Hcfg & Hname & Hid & Himage) Hmarshal stem.
  unfold recordOf in Hmarshal.
  asking Hconf Hcfg Hname Hid Himage.
  all: rewrite Htar, Hmarshal; unfold writePaths;
    do 3 (run; rewrite Hfault); run;
    rewrite lookup_insert_eq, insert_insert_eq; cbn [default id app];
    unfold plainEvents; subst stem; rewrite <- ?app_assoc; cbn [app];
    reflexivity.
Qed.

Lemma launchHook_run (E : Env) (stem : string) :
  optLaunch E <> "" ->
  exists name args,
    strings.Split (launchLine E stem) " " = name :: args /\
    forall w,
      let evs :=
        [Stdout ("Launching external command and waiting for it to finish:" +:+ nl);
         Stdout (launchLine E stem +:+ nl);
         ExecRun name args] in
      launchHook E stem w = (Return (exec_Run E (journal w ++ evs)), logged w evs).
Proof.
  intros Hlaunch.
  destruct (Split_nonempty (launchLine E stem) " ") as (name & args & Hsplit);
    [discriminate |].
  exists name, args. split; [exact Hsplit |]. intros w evs.
  unfold launchHook. rewrite (eqb_empty _ Hlaunch), Hsplit. cbn [negb]. run.
  subst evs. unfold logged. rewrite <- !app_assoc. reflexivity.
Qed.

(** C8, as the code has it.  A plain backup that meets no failure before
    the hook writes the JSON artifact and the file list and then, as its
    last action, runs the launch template once: [%tag] replaced by the
    stem of the artifacts and [%list] by the name of the file list, the
    line split at every single space into the name of the command and its
    arguments.  What that command answers is what the backup returns.  For
    the template [notify.sh %tag %list] and the stem [app-1] the command is
    [notify.sh app-1 app-1.backup.files]. *)
Theorem backup_launches_template (E : Env) (ID : string) (w : World)
    (conf : types.ContainerJSON) (config0 : container.Config) (image : string)
    (b : bytes) :
  optTar E = false ->
  optLaunch E <> "" ->
  faultless E ->
  inspects E (journal w) ID conf config0 image ->
  json_MarshalIndent E (recordOf conf config0 image) = Ok b ->
  let stem := strings.Replace (sanitize_Path E (image +:+ "-" +:+ ID)) "/" "_" in
  let ol :=
    strings.Replace (strings.Replace (optLaunch E) "%tag" stem)
                    "%list" (stem +:+ ".backup.files") in
  exists name args w',
    strings.Split ol " " = name :: args /\
    backup E ID w = (Return (exec_Run E (journal w')), w') /\
    journal w' =
      journal (asked w ID conf config0) ++ plainEvents stem b
      ++ [Stdout ("Launching external command and waiting for it to finish:" +:+ nl);
          Stdout (ol +:+ nl);
          ExecRun name args] /\
    files w' !! (stem +:+ ".backup.json") = Some b /\
    files w' !! (stem +:+ ".backup.files") =
      Some (list_byte_of_string (stem +:+ ".backup.json" +:+ nl)) /\
    (optLaunch E = "notify.sh %tag %list" -> stem = "app-1" ->
     name = "notify.sh" /\ args = ["app-1"; "app-1.backup.files"]).
Proof.
  intros Htar Hlaunch Hfault Hinspects Hmarshal stem ol.
  destruct (launchHook_run E stem Hlaunch) as (name & args & Hsplit & Hhook).
  exists name, args, (snd (backup E ID w)).
  split; [exact Hsplit |].
  rewrite (backup_plain_run E ID w conf config0 image b Htar Hfault Hinspects Hmarshal).
  cbv zeta. fold stem. rewrite Hhook. cbv zeta. unfold logged.
  cbn [snd journal files]. rewrite <- !app_assoc.
  split; [reflexivity |]. split; [reflexivity |].
  split.
  { rewrite (lookup_insert_ne _ _ _ _ (filelist_not_artifact _)).
    apply lookup_insert_eq. }
  split; [apply lookup_insert_eq |].
  intros Htemplate Hstem. unfold launchLine in Hsplit. fold stem in Hsplit.
  rewrite Htemplate, Hstem in Hsplit. vm_compute in Hsplit.
  now injection Hsplit as <- <-.
Qed.

Lemma backup_launches_template_witness :
  exists w',
    backup stub.launching "1" stub.w0 = (Return None, w') /\
    last (journal w') = Some (ExecRun "notify.sh" ["app-1"; "app-1.backup.files"]) /\
    files w' !! "app-1.backup.files"
      = Some (list_byte_of_string ("app-1.backup.json" +:+ nl)).
Proof.
  destruct (backup_launches_template stub.launching "1" stub.w0 stub.app
              {| container.Image := "app"; container.Other := "" |} "app"
              (list_byte_of_string "<app>"))
    as (name & args & w' & _ & Hrun & Hjournal & _ & Hlist & Hexample).
  - reflexivity.
  - discriminate.
  - intros j. reflexivity.
  - repeat split; try discriminate; vm_compute; reflexivity.
  - vm_compute. reflexivity.
  - destruct Hexample as [-> ->]; [reflexivity | vm_compute; reflexivity |].
    exists w'. split; [exact Hrun |]. split.
    + rewrite Hjournal. vm_compute. reflexivity.
    + exact Hlist.
Defined.

(** C8, as the specification words it (the line is split on white space),
    fails for a template whose words are separated by a tab: the whole line
    is taken for the name of the command, white space and all. *)
Lemma launchHook_keeps_tabs :
  last (journal (snd (launchHook stub.tabbed "app-1" stub.w0))) =
    Some (ExecRun ("notify.sh" +:+ stub.tab +:+ "app-1") []) /\
  spaceFree ("notify.sh" +:+ stub.tab +:+ "app-1") = false.
Proof. split; vm_compute; reflexivity. Qed.

(** ** Backing up every container *)

(** The batch stops at the first container whose backup fails: the error is
    returned and nothing is done for the containers after it. *)
Lemma backupEach_first_failure (E : Env) (done rest : list container.Summary)
    (c : container.Summary) (w w1 w2 : World) (e : error) :
  backupEach E done w = (Return None, w1) ->
  backup E (container.ID c) w1 = (Return (Some e), w2) ->
  backupEach E (done ++ c :: rest) w = (Return (Some e), w2).
Proof.
  revert w; induction done as [|d done IH]; intros w Hdone Hfail.
  - injection Hdone as <-. cbn [app backupEach]. unfold bind. now rewrite Hfail.
  - cbn [app backupEach] in *. unfold bind in *.
    destruct (backup E (container.ID d) w) as [[[e'|]|v] w'];
      try discriminate Hdone.
    now apply IH.
Qed.

Lemma backupAll_listing_error (E : Env) (w : World) (e : error) :
  cli_ContainerList E (journal w ++ [ContainerList (optStopped E)]) = Err e ->
  backupAll E w = (Panic e, logged w [ContainerList (optStopped E)]).
Proof. intros H. unfold backupAll. run. now rewrite H. Qed.

Lemma backupAll_listed (E : Env) (w : World) (containers : list container.Summary) :
  cli_ContainerList E (journal w ++ [ContainerList (optStopped E)]) = Ok containers ->
  backupAll E w =
    backupEach E containers (logged w [ContainerList (optStopped E)]).
Proof. intros H. unfold backupAll. run. now rewrite H. Qed.

(** C9.  When the daemon fails to list the containers, [backup --all] does
    not return the error: it panics with it. *)
Theorem backupAll_panics_when_listing_fails :
  backupCmd stub.unreachable [] stub.w0 =
    (Panic "Cannot connect to the Docker daemon",
     logged stub.w0 [ContainerList false]).
Proof.
  unfold backupCmd. change (optAll stub.unreachable) with true. cbv iota.
  now apply backupAll_listing_error.
Qed.

(** ** Round trip *)







Example MarshalIndent_invalid_bytes :
  stub.MarshalIndent (stub.named 254) = stub.MarshalIndent (stub.named 255) /\
  stub.named 254 <> stub.named 255.
Proof. split; [vm_compute; reflexivity | discriminate]. Qed.

(** ** Further checks on concrete inputs *)

Example Split_spaces : strings.Split "a  b" " " = ["a"; ""; "b"].
Proof. reflexivity. Qed.

Example Replace_slash : strings.Replace "a/b//c" "/" "_" = "a_b__c".
Proof. reflexivity. Qed.

Example Replace_overlap : strings.Replace "aaa" "aa" "b" = "ba".
Proof. reflexivity. Qed.

Example HasSuffix_json : strings.HasSuffix "x.backup.json" ".json" = true.
Proof. reflexivity. Qed.

Example Split_name : strings.Split "/web-1" "/" = [""; "web-1"].
Proof. reflexivity. Qed.

(** The plain backup of the scenario writes the artifact and its file list. *)
Example backup_plain_files :
  files (snd (backup stub.plain "web" stub.w0)) =
    {[ "nginx-web.backup.json" := stub.webJSON;
       "nginx-web.backup.files" :=
         list_byte_of_string ("nginx-web.backup.json" +:+ nl) ]}.
Proof. vm_compute. reflexivity. Qed.

(** A restore of the scenario's artifact creates [web-1] and inspects it. *)
Example restore_web :
  restore stub.plain "web.json" (stub.holding "web.json" stub.webJSON) =
    (Return None,
     logged (stub.holding "web.json" stub.webJSON)
       [ReadFile "web.json";
        Stdout ("Restoring Container: web-1" +:+ nl);
        ContainerCreate (Config stub.web) (HostConfig stub.web) None "web-1";
        Stdout ("Created Container with ID: fedcba9876543210" +:+ nl);
        ContainerInspect "fedcba9876543210"]).
Proof. vm_compute. reflexivity. Qed.

(** * Further properties of the code *)

(** ** The batch *)

(** X1. In [backup --all], once the containers before [c] have been backed
    up and the backup of [c] fails, [backupAll] returns that error and the
    world is the one the failed backup left: nothing is inspected or written
    for the containers listed after [c]. *)
Theorem backupAll_stops_at_first_failure (E : Env) (w w1 w2 : World)
    (done rest : list container.Summary) (c : container.Summary) (e : error) :
  cli_ContainerList E (journal w ++ [ContainerList (optStopped E)]) =
    Ok (done ++ c :: rest) ->
  backupEach E done (logged w [ContainerList (optStopped E)]) = (Return None, w1) ->
  backup E (container.ID c) w1 = (Return (Some e), w2) ->
  backupAll E w = (Return (Some e), w2).
Proof.
  intros Hlist Hdone Hfail. rewrite (backupAll_listed _ _ _ Hlist).
  exact (backupEach_first_failure _ _ _ _ _ _ _ _ Hdone Hfail).
Qed.

Lemma backupAll_stops_at_first_failure_witness :
  fst (backupCmd stub.batch [] stub.w0) = Return (Some "No such container: b") /\
  Forall (fun ev => ev <> ContainerInspect "c")
         (journal (snd (backupCmd stub.batch [] stub.w0))).
Proof.
  assert (exists w1 w2,
            backupEach stub.batch [ {| container.ID := "a" |} ]
              (logged stub.w0 [ContainerList (optStopped stub.batch)])
              = (Return None, w1) /\
            backup stub.batch "b" w1 = (Return (Some "No such container: b"), w2) /\
            Forall (fun ev => ev <> ContainerInspect "c") (journal w2))
    as (w1 & w2 & Hdone & Hfail & Hjournal).
  { eexists _, _. split; [vm_compute; reflexivity |].
    split; [vm_compute; reflexivity |].
    repeat (apply List.Forall_cons; [discriminate |]). apply List.Forall_nil. }
  change (backupCmd stub.batch [] stub.w0) with (backupAll stub.batch stub.w0).
  rewrite (backupAll_stops_at_first_failure stub.batch stub.w0 w1 w2
             [ {| container.ID := "a" |} ] [ {| container.ID := "c" |} ]
             {| container.ID := "b" |} _ eq_refl Hdone Hfail).
  split; [reflexivity | exact Hjournal].
Defined.

(** ** Failing restores *)

Lemma scanTar_broken (entries : list (tar.Header * bytes)) (e : error) (b : bytes) :
  scanTar (brokenArchive entries e) b = Err e.
Proof. apply scanTar_corrupt. Qed.

(** X2. [restoreTar] gives up without a call to the daemon when the file
    does not exist, when the archive breaks off (even after a
    [container.json] entry has been read in full), and when the buffered
    entry does not decode; the error returned is the one of the failing
    step and the only thing done is opening the file. *)
Theorem restoreTar_failures (E : Env) (filename : string) (w : World) :
  (files w !! filename = None ->
   restoreTar E filename w =
     (Return (Some ("open " +:+ filename +:+ ": no such file or directory")),
      logged w [OsOpen filename])) /\
  (forall content entries e,
     files w !! filename = Some content ->
     tar_parse E content = brokenArchive entries e ->
     restoreTar E filename w = (Return (Some e), logged w [OsOpen filename])) /\
  (forall content entries e,
     files w !! filename = Some content ->
     tar_parse E content = archive entries ->
     json_Unmarshal E (lastContainerJSON entries) = Err e ->
     restoreTar E filename w = (Return (Some e), logged w [OsOpen filename])).
Proof.
  unfold restoreTar, loadTar. split; [| split].
  - intros Hfile. run. now rewrite Hfile.
  - intros content entries e Hfile Hparse. run. rewrite Hfile. run.
    rewrite Hfile. cbn [default id]. now rewrite Hparse, scanTar_broken.
  - intros content entries e Hfile Hparse Hjson. run. rewrite Hfile. run.
    rewrite Hfile. cbn [default id]. rewrite Hparse, scanTar_archive.
    fold (lastContainerJSON entries). run. now rewrite Hjson.
Qed.

Lemma restoreTar_failures_witness :
  restoreTar stub.plain "gone.tar" stub.w0 =
    (Return (Some "open gone.tar: no such file or directory"),
     logged stub.w0 [OsOpen "gone.tar"]) /\
  restoreTar (stub.env stub.inspected "" false [] (Ok [])
                (fun _ => brokenArchive stub.twice "unexpected EOF"))
             "b.tar" (stub.holding "b.tar" []) =
    (Return (Some "unexpected EOF"), logged (stub.holding "b.tar" []) [OsOpen "b.tar"]) /\
  restoreTar (stub.reading [stub.entry "container.json" "{"])
             "b.tar" (stub.holding "b.tar" []) =
    (Return (Some "invalid character looking for beginning of value"),
     logged (stub.holding "b.tar" []) [OsOpen "b.tar"]).
Proof.
  split; [| split].
  - apply (proj1 (restoreTar_failures stub.plain "gone.tar" stub.w0)).
    vm_compute. reflexivity.
  - apply (proj1 (proj2 (restoreTar_failures _ "b.tar" (stub.holding "b.tar" [])))
             [] stub.twice); vm_compute; reflexivity.
  - apply (proj2 (proj2 (restoreTar_failures _ "b.tar" (stub.holding "b.tar" [])))
             [] [stub.entry "container.json" "{"]); vm_compute; reflexivity.
Defined.

(** X3. [restore] gives up without a call to the daemon when the file does
    not exist or does not decode (an empty file never decodes); the only
    thing done is reading the file. *)
Theorem restore_failures (E : Env) (filename : string) (w : World) :
  (files w !! filename = None ->
   restore E filename w =
     (Return (Some ("open " +:+ filename +:+ ": no such file or directory")),
      logged w [ReadFile filename])) /\
  (forall b e,
     files w !! filename = Some b ->
     json_Unmarshal E b = Err e ->
     restore E filename w = (Return (Some e), logged w [ReadFile filename])) /\
  (files w !! filename = Some ([] : bytes) ->
   restore E filename w =
     (Return (Some "unexpected end of JSON input"), logged w [ReadFile filename])).
Proof.
  unfold restore, loadJSON. split; [| split].
  - intros Hfile. run. now rewrite Hfile.
  - intros b e Hfile Hjson. run. rewrite Hfile. run. now rewrite Hjson.
  - intros Hfile. run. now rewrite Hfile.
Qed.

Lemma restore_failures_witness :
  restore stub.plain "gone.json" stub.w0 =
    (Return (Some "open gone.json: no such file or directory"),
     logged stub.w0 [ReadFile "gone.json"]) /\
  restore stub.plain "e.json" (stub.holding "e.json" []) =
    (Return (Some "unexpected end of JSON input"),
     logged (stub.holding "e.json" []) [ReadFile "e.json"]).
Proof.
  split.
  - apply (proj1 (restore_failures stub.plain "gone.json" stub.w0)).
    vm_compute. reflexivity.
  - apply (proj2 (proj2 (restore_failures stub.plain "e.json"
                           (stub.holding "e.json" [])))).
    vm_compute. reflexivity.
Defined.

(** ** Creating and starting *)

(** Every way [createContainer] can go. *)
Lemma createContainer_run (E : Env) (backup : Backup) (w : World) :
  exists name,
    last (strings.Split (Name backup) "/") = Some name /\
    let opening :=
      [Stdout ("Restoring Container: " +:+ name +:+ nl);
       ContainerCreate (Config backup) (HostConfig backup)
                       (networkConfigOf backup) name] in
    match cli_ContainerCreate E (journal w ++ opening) with
    | Err e =>
        createContainer E backup w =
          (Return ("", Some ("failed to create container: " +:+ e)),
           logged w opening)
    | Ok resp =>
        let created :=
          opening ++
          [Stdout ("Created Container with ID: " +:+ types.RespID resp +:+ nl)] in
        match HostConfig backup with
        | None =>
            createContainer E backup w =
              (Panic "invalid memory address or nil pointer dereference",
               logged w created)
        | Some hc =>
            exists olds,
              Forall (fun ev => isStdout ev = true) olds /\
              let inspecting :=
                created ++ olds ++ [ContainerInspect (types.RespID resp)] in
              match cli_ContainerInspect E (journal w ++ inspecting) with
              | Err e =>
                  createContainer E backup w =
                    (Return ("", Some e), logged w inspecting)
              | Ok conf =>
                  exists news,
                    Forall (fun ev => isStdout ev = true) news /\
                    createContainer E backup w =
                      (Return (types.RespID resp, None),
                       logged w (inspecting ++ news))
              end
        end
    end.
Proof.
  unfold createContainer, lastPart.
  destruct (Split_nonempty (Name backup) "/") as (p & ps & ->); [discriminate |].
  rewrite last_cons.
  set (name := match last ps with Some y => y | None => p end).
  assert (match last ps with Some y => Some y | None => Some p end = Some name)
    as -> by (subst name; now destruct (last ps)).
  exists name. split; [reflexivity |].
  assert (match NetworkSettings backup with
          | Some ns =>
              Some {| network.EndpointsConfig := copyEndpoints (types.Networks ns) |}
          | None => None
          end = networkConfigOf backup) as ->.
  { unfold networkConfigOf. destruct (NetworkSettings backup); [| reflexivity].
    now rewrite copyEndpoints_id. }
  run. rewrite <- !app_assoc. cbn [app].
  destruct (cli_ContainerCreate E _) as [resp | e]; run;
    [| unfold logged; rewrite <- ?app_assoc; reflexivity].
  destruct (HostConfig backup) as [hc |]; run;
    [| unfold logged; rewrite <- ?app_assoc; reflexivity].
  prints (fun ev => isStdout ev = true)
         (fun m => "Old Mount (type " +:+ mount.Type_ m +:+ ") "
                   +:+ mount.Source m +:+ " -> " +:+ mount.Target m +:+ nl).
  exists evs. split; [assumption |].
  unfold logged; run. rewrite <- !app_assoc. cbn [app].
  destruct (cli_ContainerInspect E _) as [conf | e]; run;
    [| cbn [files journal paths tw]; rewrite <- ?app_assoc; reflexivity].
  prints (fun ev => isStdout ev = true)
         (fun m => "New Mount (type " +:+ types.Type_ m +:+ ") "
                   +:+ types.Source m +:+ " -> " +:+ types.Destination m +:+ nl).
  exists evs0. split; [assumption |].
  unfold logged. flat. reflexivity.
Qed.

Lemma Stdout_only (evs : list Event) (ev : Event) :
  Forall (fun ev => isStdout ev = true) evs -> In ev evs -> isStdout ev = true.
Proof. intros H Hin. rewrite List.Forall_forall in H. auto. Qed.

(** X4. When the backup has [NetworkSettings], [createContainer] hands the
    daemon a network configuration whose endpoint map is the backup's
    [Networks] map, entry for entry, together with the backup's [Config] and
    [HostConfig] and the last segment of its [Name]. *)
Theorem createContainer_with_network (E : Env) (backup : Backup)
    (ns : types.NetworkSettings) (w : World) :
  NetworkSettings backup = Some ns ->
  exists name rest,
    last (strings.Split (Name backup) "/") = Some name /\
    journal (snd (createContainer E backup w)) =
      journal w ++
      Stdout ("Restoring Container: " +:+ name +:+ nl)
      :: ContainerCreate (Config backup) (HostConfig backup)
           (Some {| network.EndpointsConfig := types.Networks ns |}) name
      :: rest.
Proof.
  intros Hns. destruct (createContainer_run E backup w) as (name & Hname & Hrun).
  exists name. unfold networkConfigOf in Hrun. rewrite Hns in Hrun.
  cbv zeta in Hrun.
  destruct (cli_ContainerCreate E _) as [resp | e].
  - destruct (HostConfig backup) as [hc |].
    + destruct Hrun as (olds & _ & Hrun).
      destruct (cli_ContainerInspect E _) as [conf | e].
      * destruct Hrun as (news & _ & ->). eexists. split; [exact Hname |].
        cbn [snd logged journal app]. reflexivity.
      * rewrite Hrun. eexists. split; [exact Hname |].
        cbn [snd logged journal app]. reflexivity.
    + rewrite Hrun. eexists. split; [exact Hname |].
      cbn [snd logged journal app]. reflexivity.
  - rewrite Hrun. eexists. split; [exact Hname |].
    cbn [snd logged journal app]. reflexivity.
Qed.

Lemma createContainer_with_network_witness :
  exists rest,
    journal (snd (createContainer stub.plain stub.networked stub.w0)) =
      Stdout ("Restoring Container: web-1" +:+ nl)
      :: ContainerCreate (Config stub.web) (HostConfig stub.web)
           (Some {| network.EndpointsConfig :=
                      {[ "bridge" := "172.17.0.2"; "backend" := "10.0.0.5" ]} |})
           "web-1"
      :: rest.
Proof.
  destruct (createContainer_with_network stub.plain stub.networked _ stub.w0 eq_refl)
    as (name & rest & Hname & Hj).
  exists rest. vm_compute in Hname. injection Hname as <-. exact Hj.
Defined.

(** X5. A backup whose [HostConfig] is null is not rejected: the container
    is created first, and only then does the restore panic on the nil
    [HostConfig], leaving the created container behind and returning no
    error. *)
Theorem restore_null_HostConfig_panics (E : Env) (backup : Backup) (w : World)
    (name : string) (resp : types.CreateResponse) :
  HostConfig backup = None ->
  last (strings.Split (Name backup) "/") = Some name ->
  cli_ContainerCreate E
    (journal w ++
     [Stdout ("Restoring Container: " +:+ name +:+ nl);
      ContainerCreate (Config backup) None (networkConfigOf backup) name])
    = Ok resp ->
  createAndStart E backup w =
    (Panic "invalid memory address or nil pointer dereference",
     logged w
       [Stdout ("Restoring Container: " +:+ name +:+ nl);
        ContainerCreate (Config backup) None (networkConfigOf backup) name;
        Stdout ("Created Container with ID: " +:+ types.RespID resp +:+ nl)]).
Proof.
  intros Hhc Hname Hcreate.
  destruct (createContainer_run E backup w) as (name' & Hname' & Hrun).
  rewrite Hname in Hname'. injection Hname' as <-.
  rewrite Hhc in Hrun. cbv zeta in Hrun. rewrite Hcreate in Hrun.
  unfold createAndStart, bind. now rewrite Hrun.
Qed.

Lemma restore_null_HostConfig_panics_witness :
  createAndStart stub.plain stub.hostless stub.w0 =
    (Panic "invalid memory address or nil pointer dereference",
     logged stub.w0
       [Stdout ("Restoring Container: web-1" +:+ nl);
        ContainerCreate (Config stub.web) None None "web-1";
        Stdout ("Created Container with ID: fedcba9876543210" +:+ nl)]).
Proof.
  apply (restore_null_HostConfig_panics stub.plain stub.hostless stub.w0
           "web-1" {| types.RespID := "fedcba9876543210" |});
    vm_compute; reflexivity.
Defined.

(** X6. When the daemon refuses to create the container, the restore returns
    the daemon's message behind the prefix [failed to create container: ]
    and stops there: nothing is inspected and, even with [--start], nothing
    is started. *)
Theorem createAndStart_creation_failure (E : Env) (backup : Backup) (w : World)
    (name : string) (e : error) :
  last (strings.Split (Name backup) "/") = Some name ->
  cli_ContainerCreate E
    (journal w ++
     [Stdout ("Restoring Container: " +:+ name +:+ nl);
      ContainerCreate (Config backup) (HostConfig backup)
                      (networkConfigOf backup) name])
    = Err e ->
  createAndStart E backup w =
    (Return (Some ("failed to create container: " +:+ e)),
     logged w
       [Stdout ("Restoring Container: " +:+ name +:+ nl);
        ContainerCreate (Config backup) (HostConfig backup)
                        (networkConfigOf backup) name]).
Proof.
  intros Hname Hcreate.
  destruct (createContainer_run E backup w) as (name' & Hname' & Hrun).
  rewrite Hname in Hname'. injection Hname' as <-.
  cbv zeta in Hrun. rewrite Hcreate in Hrun.
  unfold createAndStart, bind. now rewrite Hrun.
Qed.

Lemma createAndStart_creation_failure_witness :
  createAndStart
    (stub.tuned (fun _ => Ok stub.inspected) (Ok [])
                (Err "Conflict. The container name is already in use")
                true None stub.plain)
    stub.web stub.w0 =
    (Return (Some "failed to create container: Conflict. The container name is already in use"),
     logged stub.w0
       [Stdout ("Restoring Container: web-1" +:+ nl);
        ContainerCreate (Config stub.web) (HostConfig stub.web) None "web-1"]).
Proof.
  apply (createAndStart_creation_failure _ stub.web stub.w0 "web-1");
    vm_compute; reflexivity.
Defined.

(** Split a membership in a journal into its cases; printed lines are no
    daemon calls. *)
Ltac members H :=
  repeat (rewrite in_app_iff in H || cbn [In] in H);
  repeat match type of H with
         | _ \/ _ => destruct H as [H | H]
         | False => destruct H
         end;
  try discriminate H;
  try match type of H with
      | In _ ?l =>
          match goal with
          | F : Forall _ l |- _ => apply (Stdout_only _ _ F) in H; discriminate H
          end
      end.

(** X7. A restore starts a container only under [--start], and then as its
    last action: the events of the run are the creation call, which the
    daemon answered with an ID, the inspection of the container of that ID,
    which the daemon answered without an error, lines of output, and the
    start of the container of that same ID. *)
Theorem restore_starts_what_it_created (E : Env) (backup : Backup) (w : World) :
  exists evs,
    journal (snd (createAndStart E backup w)) = journal w ++ evs /\
    forall id,
      In (ContainerStart id) evs ->
      optStart E = true /\
      exists name creating resp inspecting conf printing,
        evs = creating ++ inspecting ++ printing ++ [ContainerStart id] /\
        last creating =
          Some (ContainerCreate (Config backup) (HostConfig backup)
                                (networkConfigOf backup) name) /\
        cli_ContainerCreate E (journal w ++ creating) = Ok resp /\
        id = types.RespID resp /\
        last inspecting = Some (ContainerInspect id) /\
        cli_ContainerInspect E (journal w ++ creating ++ inspecting) = Ok conf /\
        Forall (fun ev => isStdout ev = true) printing.
Proof.
  destruct (createContainer_run E backup w) as (name & Hname & Hrun).
  cbv zeta in Hrun. unfold createAndStart, bind.
  destruct (cli_ContainerCreate E _) as [resp | e] eqn:Hcreate.
  2: { rewrite Hrun. eexists. split; [reflexivity |]. intros id Hin. members Hin. }
  destruct (HostConfig backup) as [hc |] eqn:Hhost.
  2: { rewrite Hrun. eexists. split; [reflexivity |]. intros id Hin. members Hin. }
  destruct Hrun as (olds & Holds & Hrun).
  destruct (cli_ContainerInspect E _) as [conf | e] eqn:Hinspect.
  2: { rewrite Hrun. eexists. split; [reflexivity |]. intros id Hin. members Hin. }
  destruct Hrun as (news & Hnews & ->).
  destruct (optStart E).
  2: { eexists. split; [reflexivity |]. intros id Hin. members Hin. }
  unfold startContainer.
  destruct (slice_to (types.RespID resp) 12) as [id12 |]; run.
  2: { eexists. split; [reflexivity |]. intros id Hin. members Hin. }
  exists (([Stdout ("Restoring Container: " +:+ name +:+ nl);
            ContainerCreate (Config backup) (Some hc) (networkConfigOf backup) name]
           ++ [Stdout ("Created Container with ID: " +:+ types.RespID resp +:+ nl)])
          ++ olds ++ [ContainerInspect (types.RespID resp)] ++ news
          ++ [Stdout ("Starting container: " +:+ id12 +:+ nl);
              ContainerStart (types.RespID resp)]).
  split.
  { destruct (cli_ContainerStart E _); cbn [snd journal]; unfold logged; flat;
      reflexivity. }
  intros id Hin.
  assert (id = types.RespID resp) as ->.
  { members Hin. now injection Hin. }
  split; [reflexivity |].
  exists name,
    [Stdout ("Restoring Container: " +:+ name +:+ nl);
     ContainerCreate (Config backup) (Some hc) (networkConfigOf backup) name],
    resp,
    ([Stdout ("Created Container with ID: " +:+ types.RespID resp +:+ nl)]
     ++ olds ++ [ContainerInspect (types.RespID resp)]),
    conf,
    (news ++ [Stdout ("Starting container: " +:+ id12 +:+ nl)]).
  split; [rewrite <- !app_assoc; reflexivity |].
  split; [reflexivity |].
  split; [exact Hcreate |]. split; [reflexivity |].
  split; [rewrite !app_assoc; apply last_snoc |].
  split.
  { rewrite <- Hinspect; f_equal; rewrite <- ?app_assoc; reflexivity. }
  apply Forall_app. split; [exact Hnews |].
  apply List.Forall_cons; [reflexivity | apply List.Forall_nil].
Qed.

Lemma restore_starts_what_it_created_witness :
  last (journal (snd (createAndStart
                        (stub.tuned (fun _ => Ok stub.inspected) (Ok [])
                                    (Ok {| types.RespID := "fedcba9876543210" |})
                                    true None stub.plain)
                        stub.web stub.w0)))
    = Some (ContainerStart "fedcba9876543210").
Proof.
  destruct (restore_starts_what_it_created
              (stub.tuned (fun _ => Ok stub.inspected) (Ok [])
                          (Ok {| types.RespID := "fedcba9876543210" |})
                          true None stub.plain)
              stub.web stub.w0) as (evs & Hj & Hstart).
  cbn [journal stub.w0 app] in Hj. rewrite Hj.
  destruct (Hstart "fedcba9876543210")
    as (_ & name & creating & resp & inspecting & conf & printing & -> & _).
  - rewrite <- Hj. vm_compute. tauto.
  - rewrite !app_assoc. apply last_snoc.
Defined.

(** ** Resolving the image name *)

Lemma closerTag_In (imageName : string) (tags : list string) (tag : string) :
  closerTag imageName tags = Some tag ->
  In tag tags /\ strings.Contains tag imageName = true.
Proof.
  induction tags as [|t tags IH]; simpl; [discriminate |].
  destruct (strings.Contains t imageName) eqn:Ht; simpl.
  - intros [= <-]. auto.
  - intros H. destruct (IH H). auto.
Qed.

Lemma pickTag_origin (imageName : string) (images : list image.Summary)
    (name : string) :
  pickTag imageName images = Some name ->
  name = imageName \/
  exists img,
    In img images /\
    strings.Contains imageName (image.ID img) = true /\
    In name (image.RepoTags img).
Proof.
  induction images as [|img images IH]; simpl.
  - intros [= <-]. now left.
  - destruct (strings.Contains imageName (image.ID img)) eqn:Hid; simpl.
    2: { intros H. destruct (IH H) as [-> | (i & Hi & Hrest)]; [now left |].
         right. exists i. auto. }
    destruct (image.RepoTags img) as [|tag0 tags] eqn:Htags; simpl.
    { intros H. destruct (IH H) as [-> | (i & Hi & Hrest)]; [now left |].
      right. exists i. auto. }
    intros H. right. exists img. split; [now left |]. split; [exact Hid |].
    rewrite Htags.
    destruct (strings.Contains tag0 imageName); simpl in H.
    + injection H as <-. now left.
    + destruct (closerTag imageName tags) as [tag |] eqn:Hcloser.
      * injection H as <-. right. now apply (closerTag_In imageName).
      * injection H as <-. now left.
Qed.

(** X8. [getFullImageName] always returns (the index into [RepoTags] never
    goes out of range), and the name it returns is never invented: it is
    the name it was given, or a tag of a listed image whose ID occurs in
    that name.  With an error from the image list, it is the name it was
    given. *)
Theorem getFullImageName_origin (E : Env) (imageName : string) (w : World) :
  exists name err w',
    getFullImageName E imageName w = (Return (name, err), w') /\
    (err <> None -> name = imageName) /\
    (name = imageName \/
     exists images img,
       cli_ImageList E (journal w ++ [ImageList]) = Ok images /\
       In img images /\
       strings.Contains imageName (image.ID img) = true /\
       In name (image.RepoTags img)).
Proof.
  unfold getFullImageName.
  destruct (strings.Contains imageName ":").
  { eexists _, _, _. split; [reflexivity |]. split; [congruence | now left]. }
  run. destruct (cli_ImageList E _) as [images | e] eqn:Hlist.
  2: { eexists _, _, _. split; [reflexivity |]. split; [easy | now left]. }
  destruct (pickTag_total imageName images) as [name Hname]. rewrite Hname.
  eexists _, _, _. split; [reflexivity |]. split; [congruence |].
  destruct (pickTag_origin _ _ _ Hname) as [-> | (img & Himg & Hid & Htag)];
    [now left | right]. exists images, img. auto.
Qed.

Lemma prefix_iff (sub s : string) :
  String.prefix sub s = true <-> exists q, s = sub +:+ q.
Proof.
  revert s; induction sub as [|c sub IH]; intros s.
  - rewrite prefix_empty. split; [eauto | reflexivity].
  - destruct s as [|a s]; simpl.
    + split; [discriminate | intros [q H]; discriminate H].
    + destruct (ascii_dec c a) as [<- | Hne].
      * rewrite IH. split; intros [q H]; exists q.
        -- now rewrite append_cons, H.
        -- rewrite append_cons in H. now injection H.
      * split; [discriminate |]. intros [q H]. rewrite append_cons in H.
        injection H as H _. congruence.
Qed.

(** [strings.Contains] decides "occurs in". *)
Lemma Contains_iff (s sub : string) :
  strings.Contains s sub = true <-> exists p q, s = p +:+ sub +:+ q.
Proof.
  induction s as [|a s IH]; cbn [strings.Contains].
  - rewrite orb_false_r, prefix_iff. split.
    + intros [q H]. now exists "", q.
    + intros (p & q & H). destruct p; [now exists q |].
      rewrite append_cons in H. discriminate H.
  - rewrite orb_true_iff, prefix_iff, IH. split.
    + intros [[q H] | (p & q & H)].
      * now exists "", q.
      * exists (String a p), q. now rewrite append_cons, H.
    + intros (p & q & H). destruct p as [|c p].
      * left. now exists q.
      * right. rewrite append_cons in H. injection H as _ H. now exists p, q.
Qed.

Lemma append_assoc (a b c : string) : (a +:+ b) +:+ c = a +:+ b +:+ c.
Proof.
  induction a as [|x a IH]; [reflexivity |].
  now rewrite !append_cons, IH.
Qed.

Lemma Contains_trans (a b c : string) :
  strings.Contains a b = true -> strings.Contains b c = true ->
  strings.Contains a c = true.
Proof.
  rewrite !Contains_iff. intros (p & q & ->) (p' & q' & ->).
  exists (p +:+ p'), (q' +:+ q). now rewrite !append_assoc.
Qed.

(** X9. An image name without [":"] cannot contain an image ID that has a
    [":"] in it.  So against an image list whose IDs all carry a [":"] (as
    the daemon's [sha256:<digest>] IDs do), [getFullImageName] returns every
    name exactly as it was given, tagged or not. *)
Theorem getFullImageName_digest_ids (E : Env) (imageName : string) (w : World)
    (images : list image.Summary) :
  cli_ImageList E (journal w ++ [ImageList]) = Ok images ->
  Forall (fun img => strings.Contains (image.ID img) ":" = true) images ->
  fst (getFullImageName E imageName w) = Return (imageName, None).
Proof.
  intros Hlist Hids. unfold getFullImageName.
  destruct (strings.Contains imageName ":") eqn:Hcolon; [reflexivity |].
  run. rewrite Hlist.
  rewrite pickTag_unrelated; [reflexivity |].
  apply (List.Forall_impl _ (P := fun img => strings.Contains (image.ID img) ":" = true));
    [| exact Hids].
  intros img Hid. destruct (strings.Contains imageName (image.ID img)) eqn:Hin;
    [| reflexivity].
  rewrite (Contains_trans _ _ _ Hin Hid) in Hcolon. discriminate Hcolon.
Qed.

Lemma getFullImageName_digest_ids_witness :
  fst (getFullImageName stub.digests "nginx" stub.w0) = Return ("nginx", None).
Proof.
  apply (getFullImageName_digest_ids stub.digests "nginx" stub.w0
           [ {| image.ID := "sha256:4bb46517cac3"; image.RepoTags := ["nginx:latest"] |};
             {| image.ID := "sha256:9c7a54a9a43c"; image.RepoTags := [] |} ]).
  - reflexivity.
  - repeat (apply List.Forall_cons; [vm_compute; reflexivity |]).
    apply List.Forall_nil.
Defined.

(** ** What a backup touches *)

(** X10. When the image list cannot be fetched for an untagged image name,
    [backup] returns that error before anything is written: the files are
    as they were and the daemon was asked twice, for the container and for
    the images. *)
Theorem backup_image_list_failure (E : Env) (ID : string) (w : World)
    (conf : types.ContainerJSON) (config : container.Config)
    (name1 id12 : string) (e : error) :
  cli_ContainerInspect E (journal w ++ [ContainerInspect ID]) = Ok conf ->
  types.Config conf = Some config ->
  slice_from (types.Name conf) 1 = Some name1 ->
  slice_to (types.ID conf) 12 = Some id12 ->
  strings.Contains (container.Image config) ":" = false ->
  cli_ImageList E
    (journal w ++
     [ContainerInspect ID;
      Stdout ("Creating backup of " +:+ name1 +:+ " ("
              +:+ container.Image config +:+ ", " +:+ id12 +:+ ")" +:+ nl);
      ImageList]) = Err e ->
  exists w',
    backup E ID w = (Return (Some e), w') /\
    files w' = files w /\
    journal w' =
      journal w ++
      [ContainerInspect ID;
       Stdout ("Creating backup of " +:+ name1 +:+ " ("
               +:+ container.Image config +:+ ", " +:+ id12 +:+ ")" +:+ nl);
       ImageList].
Proof.
  intros Hconf Hcfg Hname Hid Hcolon Hlist.
  unfold backup, getFullImageName. run. rewrite Hconf, Hname, Hcfg. run.
  rewrite Hid, Hcolon. run. flat. rewrite Hlist.
  eexists. split; [reflexivity |]. split; reflexivity.
Qed.

Lemma backup_image_list_failure_witness :
  exists w',
    backup (stub.tuned (fun _ => Ok stub.inspected)
                       (Err "Cannot connect to the Docker daemon")
                       (Ok {| types.RespID := "fedcba9876543210" |})
                       false None stub.plain)
           "web" stub.w0
      = (Return (Some "Cannot connect to the Docker daemon"), w') /\
    files w' = files stub.w0.
Proof.
  destruct (backup_image_list_failure
              (stub.tuned (fun _ => Ok stub.inspected)
                          (Err "Cannot connect to the Docker daemon")
                          (Ok {| types.RespID := "fedcba9876543210" |})
                          false None stub.plain)
              "web" stub.w0 stub.inspected
              {| container.Image := "nginx"; container.Other := "" |}
              "web-1" "0123456789ab" "Cannot connect to the Docker daemon")
    as (w' & Hrun & Hfiles & _); try (vm_compute; reflexivity).
  exists w'. split; assumption.
Defined.



Lemma createAndStart_files (E : Env) (backup : Backup) (w : World) :
  files (snd (createAndStart E backup w)) = files w.
Proof.
  destruct (createContainer_run E backup w) as (name & _ & Hrun).
  cbv zeta in Hrun. unfold createAndStart, bind.
  destruct (cli_ContainerCreate E _) as [resp | e]; [| now rewrite Hrun].
  destruct (HostConfig backup) as [hc |]; [| now rewrite Hrun].
  destruct Hrun as (olds & _ & Hrun).
  destruct (cli_ContainerInspect E _) as [conf | e]; [| now rewrite Hrun].
  destruct Hrun as (news & _ & ->).
  destruct (optStart E); [| reflexivity].
  unfold startContainer.
  destruct (slice_to (types.RespID resp) 12); run; [| reflexivity].
  now destruct (cli_ContainerStart E _).
Qed.

(** X12. A restore never writes: whatever the arguments, the file and the
    daemon's answers, every file holds after [restore <file>] what it held
    before. *)
Theorem restoreCmd_writes_nothing (E : Env) (args : list string) (w : World) :
  files (snd (restoreCmd E args w)) = files w.
Proof.
  unfold restoreCmd. destruct args as [|arg0 args]; [reflexivity |].
  destruct (strings.HasSuffix arg0 ".json").
  - unfold restore, loadJSON. run.
    destruct (files w !! arg0) as [b |]; run; [| reflexivity].
    destruct (json_Unmarshal E b) as [backup | e]; run; [| reflexivity].
    now rewrite createAndStart_files.
  - destruct (strings.HasSuffix arg0 ".tar"); [| reflexivity].
    unfold restoreTar, loadTar. run.
    destruct (files w !! arg0) as [content |] eqn:Hfile; run; [| reflexivity].
    rewrite Hfile.
    destruct (scanTar _ _) as [b | e]; run; [| reflexivity].
    destruct (json_Unmarshal E b) as [backup | e]; run; [| reflexivity].
    now rewrite createAndStart_files.
Qed.

(** X13. A plain backup that succeeded, or that got as far as running the
    launch command, has written the file list the command is pointed to:
    [<stem>.backup.files] holds one line, the name of the JSON artifact,
    and nothing else. *)
Theorem backup_file_list (E : Env) (ID : string) (w : World) :
  optTar E = false ->
  fst (backup E ID w) = Return None \/
  (exists name args,
     last (journal (snd (backup E ID w))) = Some (ExecRun name args)) ->
  exists image,
    files (snd (backup E ID w)) !! (artifactStem E image ID +:+ ".backup.files") =
      Some (list_byte_of_string
              (artifactStem E image ID +:+ ".backup.json" +:+ nl)) /\
    is_Some (files (snd (backup E ID w))
               !! (artifactStem E image ID +:+ ".backup.json")).
Proof.
  intros Htar. unfold backup, getFullImageName, launchHook, writePaths.
  destruct (optTar E); [discriminate Htar |].
  explore; cbn [fst snd journal files]; rewrite ?last_snoc;
    (intros [Hok | (name & args & Hlast)]; try discriminate);
    eexists; rewrite ?insert_insert_eq, ?lookup_insert_eq; cbn [default app];
    (split; [reflexivity |]);
    rewrite (lookup_insert_ne _ _ _ _ (filelist_not_artifact _)),
            lookup_insert_eq; eauto.
Qed.

Lemma backup_file_list_witness :
  exists image,
    files (snd (backup stub.notifying "web" stub.w0))
      !! (artifactStem stub.notifying image "web" +:+ ".backup.files") =
    Some (list_byte_of_string
            (artifactStem stub.notifying image "web" +:+ ".backup.json" +:+ nl)).
Proof.
  destruct (backup_file_list stub.notifying "web" stub.w0 eq_refl)
    as (image & Hlist & _).
  - right. exists "notify.sh", ["nginx-web"; "nginx-web.backup.files"].
    vm_compute. reflexivity.
  - exists image. exact Hlist.
Defined.

(** X14. The launch command is run at most once per backup and only as its
    last act, only in plain mode with a template configured, and only after
    the JSON artifact has been written with mode 0600 and announced.  In
    tar mode the template is ignored. *)
Theorem backup_runs_hook_last (E : Env) (ID : string) (w : World) :
  exists evs,
    journal (snd (backup E ID w)) = journal w ++ evs /\
    forall name args,
      In (ExecRun name args) evs ->
      optTar E = false /\
      optLaunch E <> "" /\
      (exists before, evs = before ++ [ExecRun name args] /\
                      Forall (fun ev => ev <> ExecRun name args) before) /\
      exists image b,
        In (WriteFile (artifactStem E image ID +:+ ".backup.json") b (6 * 64)) evs /\
        In (Stdout ("Created backup: " +:+ artifactStem E image ID
                    +:+ ".backup.json" +:+ nl)) evs.
Proof.
  unfold backup, getFullImageName, backupTar, launchHook, writePaths.
  explore; cbn [snd journal]; flat;
    (eexists; split; [reflexivity |]); intros name args Hin; members Hin.
  all: injection Hin as <- <-.
  all: match goal with
       | H : negb _ = true |- _ =>
           apply negb_true_iff, String.eqb_neq in H
       end.
  all: split; [reflexivity |]; split; [assumption |]; split.
  all: try (eexists _, _; split; cbn [In]; eauto 12).
  all: match goal with
       | |- exists before, ?l = _ /\ _ =>
           exists (removelast l); cbn [removelast]
       end.
  all: (split; [reflexivity |]).
  all: repeat (apply List.Forall_cons; [discriminate |]); apply List.Forall_nil.
Qed.

Lemma backup_runs_hook_last_witness :
  exists before,
    journal (snd (backup stub.notifying "web" stub.w0)) =
      before ++ [ExecRun "notify.sh" ["nginx-web"; "nginx-web.backup.files"]].
Proof.
  destruct (backup_runs_hook_last stub.notifying "web" stub.w0)
    as (evs & Hj & Hhook).
  cbn [journal stub.w0 app] in Hj. rewrite Hj.
  destruct (Hhook "notify.sh" ["nginx-web"; "nginx-web.backup.files"])
    as (_ & _ & (before & Hbefore & _) & _).
  - rewrite <- Hj. vm_compute. tauto.
  - exists before. exact Hbefore.
Defined.

(** X15. The record a successful plain backup stores is the inspected
    container's: its [Name], [HostConfig], [NetworkSettings] and [Platform]
    as inspected, and its [Config] with only [Image] replaced by the name
    [getFullImageName] resolved it to, which is the inspected one whenever
    that already has a tag.  The artifact is named after that resolved
    image and the ID the command was given, not the ID the daemon
    reports. *)
Theorem backup_stores_inspected_container (E : Env) (ID : string) (w w' : World) :
  optTar E = false ->
  backup E ID w = (Return None, w') ->
  exists conf config0 image b,
    inspects E (journal w) ID conf config0 image /\
    (strings.Contains (container.Image config0) ":" = true ->
     image = container.Image config0) /\
    json_MarshalIndent E
      {| Name := types.Name conf;
         Config := Some {| container.Image := image;
                           container.Other := container.Other config0 |};
         HostConfig := types.HostConfig conf;
         NetworkSettings := types.NetworkSettings_ conf;
         Platform := types.Platform conf |} = Ok b /\
    files w' !! (strings.Replace (sanitize_Path E (image +:+ "-" +:+ ID)) "/" "_"
                 +:+ ".backup.json") = Some b.
Proof.
  intros Htar. unfold backup, getFullImageName, launchHook, writePaths.
  destruct (optTar E); [discriminate Htar |].
  explore; intros Hrun; try discriminate Hrun;
    first [injection Hrun as <- | injection Hrun as _ <-];
    eexists _, _, _, _;
    (split; [solve [inspected] |]);
    (split; [intros Hcolon; first [exfalso; congruence | reflexivity] |]);
    unfold snapshot in *; (split; [eassumption |]);
    cbn [files]; fold (artifactStem E);
    rewrite ?insert_insert_eq,
            (lookup_insert_ne _ _ _ _ (filelist_not_artifact _)), lookup_insert_eq;
    reflexivity.
Qed.

Lemma backup_stores_inspected_container_witness :
  exists b,
    json_MarshalIndent stub.plain stub.web = Ok b /\
    files (snd (backup stub.plain "web" stub.w0)) !! "nginx-web.backup.json"
      = Some b.
Proof.
  assert (backup stub.plain "web" stub.w0 =
            (Return None, snd (backup stub.plain "web" stub.w0))) as Hrun
    by (vm_compute; reflexivity).
  destruct (backup_stores_inspected_container stub.plain "web" stub.w0 _
              eq_refl Hrun)
    as (conf & config0 & image & b & (Hconf & Hcfg & _ & _ & Himage) & _ & Hb & _).
  exists b. vm_compute in Hconf. injection Hconf as <-.
  vm_compute in Hcfg. injection Hcfg as <-.
  vm_compute in Himage. injection Himage as <-.
  vm_compute in Hb. injection Hb as <-.
  split; vm_compute; reflexivity.
Defined.

(** X16. The two artifact formats exclude each other.  With [--tar] every
    file event of a backup is on [<stem>.tar], so neither the JSON artifact
    nor the file list is created or written, and nothing is written with
    [WriteFile] or [WriteString]; without it every file event is on
    [<stem>.backup.json] or [<stem>.backup.files], never on [<stem>.tar],
    and the tar writer is not used.  The stem is that of the inspected
    container. *)
Theorem backup_modes_exclusive (E : Env) (ID : string) (w : World) :
  exists evs,
    journal (snd (backup E ID w)) = journal w ++ evs /\
    Forall (fun ev =>
              forall p, eventPath ev = Some p ->
                exists conf config0 image,
                  inspects E (journal w) ID conf config0 image /\
                  let stem := artifactStem E image ID in
                  if optTar E
                  then p = stem +:+ ".tar" /\
                       p <> stem +:+ ".backup.json" /\
                       p <> stem +:+ ".backup.files" /\
                       isPlainWrite ev = false
                  else (p = stem +:+ ".backup.json" \/
                        p = stem +:+ ".backup.files") /\
                       p <> stem +:+ ".tar" /\
                       isTarWrite ev = false) evs.
Proof.
  destruct (backup_file_events E ID w) as (evs & Hj & Hevs).
  exists evs. split; [exact Hj |].
  eapply List.Forall_impl; [| exact Hevs]. cbv beta.
  intros ev Hev p Hp.
  destruct (Hev p Hp) as (conf & config0 & image & Hinspects & Hmode).
  exists conf, config0, image. split; [exact Hinspects |]. cbv zeta.
  pose proof (stem_tar_not_plain (artifactStem E image ID)) as [Hjson Hlist].
  destruct (optTar E).
  - destruct Hmode as [-> Hplain]. auto.
  - destruct Hmode as [[-> | ->] Htar]; auto.
Qed.

(** X17. Backing up a list of containers is backing up its first part and
    then, if that went through without an error, the rest, from the world
    the first part left; an error or a panic in the first part is the
    outcome of the whole. *)
Theorem backupEach_app (E : Env) (first rest : list container.Summary) (w : World) :
  backupEach E (first ++ rest) w =
    match backupEach E first w with
    | (Return None, w1) => backupEach E rest w1
    | failed => failed
    end.
Proof.
  revert w; induction first as [|c first IH]; intros w; [reflexivity |].
  cbn [app backupEach]. unfold bind.
  destruct (backup E (container.ID c) w) as [[[e |] | v] w1]; auto.
Qed.

(** X18. [backup ID] begins by inspecting the container [ID] and inspects
    nothing else; it never creates or starts a container and never lists
    the containers; it asks for the image list at most once. *)
Theorem backup_daemon_calls (E : Env) (ID : string) (w : World) :
  exists rest,
    journal (snd (backup E ID w)) = journal w ++ ContainerInspect ID :: rest /\
    Forall (fun ev => isContainerInspect ev = false /\
                      isDaemonChange ev = false /\
                      forall all, ev <> ContainerList all) rest /\
    (length (List.filter (fun ev => match ev with ImageList => true | _ => false end)
                         rest) <= 1)%nat.
Proof.
  unfold backup, getFullImageName, backupTar, launchHook, writePaths.
  explore; cbn [snd journal]; flat;
    (eexists; split; [reflexivity |]);
    (split; [| cbn; lia]);
    repeat (apply List.Forall_cons;
            [split; [reflexivity | split; [reflexivity | discriminate]] |]);
    apply List.Forall_nil.
Qed.

(** ** The name of the restored container *)

Lemma splitFrom_slash (s : string) :
  Forall (fun part => strings.Contains part "/" = false)
         (let (p, ps) := strings.splitFrom "/" 0 s in p :: ps).
Proof.
  induction s as [|c s IH]; cbn [strings.splitFrom String.prefix String.length Nat.sub].
  - now repeat constructor.
  - destruct (strings.splitFrom "/" 0 s) as [p ps].
    destruct (ascii_dec "/" c) as [<- | Hc].
    + rewrite prefix_empty. apply List.Forall_cons; [reflexivity | exact IH].
    + apply List.Forall_cons_iff in IH as [Hp Hps].
      apply List.Forall_cons; [| exact Hps].
      rewrite Contains_slash_cons. now destruct (ascii_dec "/" c).
Qed.

Lemma append_empty_r (s : string) : s +:+ "" = s.
Proof. induction s as [|c s IH]; [reflexivity |]. now rewrite append_cons, IH. Qed.

(** Joining the parts with ["/"] gives the string back. *)
Lemma splitFrom_slash_join (s : string) :
  s = (let (p, ps) := strings.splitFrom "/" 0 s in
       p +:+ fold_right (fun part acc => "/" +:+ part +:+ acc) "" ps).
Proof.
  induction s as [|c s IH]; cbn [strings.splitFrom String.prefix String.length Nat.sub];
    [reflexivity |].
  destruct (strings.splitFrom "/" 0 s) as [p ps].
  destruct (ascii_dec "/" c) as [<- | Hc].
  - rewrite prefix_empty. cbn [fold_right]. rewrite append_nil.
    change ("/" +:+ ?x) with (String "/" x). now rewrite <- IH.
  - rewrite append_cons. now rewrite <- IH.
Qed.

(** X19. The name under which a restore creates the container is the part
    of the backup's [Name] after its last ["/"], or all of it if it has
    none; it never contains a ["/"]. *)
Theorem createContainer_name (E : Env) (backup : Backup) (w : World) :
  exists name rest,
    journal (snd (createContainer E backup w)) =
      journal w ++
      Stdout ("Restoring Container: " +:+ name +:+ nl)
      :: ContainerCreate (Config backup) (HostConfig backup)
                         (networkConfigOf backup) name
      :: rest /\
    strings.Contains name "/" = false /\
    (Name backup = name \/ exists pre, Name backup = pre +:+ "/" +:+ name).
Proof.
  destruct (createContainer_run E backup w) as (name & Hname & Hrun).
  cbv zeta in Hrun. exists name.
  assert (exists rest,
            journal (snd (createContainer E backup w)) =
              journal w ++
              Stdout ("Restoring Container: " +:+ name +:+ nl)
              :: ContainerCreate (Config backup) (HostConfig backup)
                                 (networkConfigOf backup) name
              :: rest) as [rest Hj].
  { destruct (cli_ContainerCreate E _) as [resp | e];
      [| rewrite Hrun; now eexists].
    destruct (HostConfig backup) as [hc |]; [| rewrite Hrun; now eexists].
    destruct Hrun as (olds & _ & Hrun).
    destruct (cli_ContainerInspect E _) as [conf | e];
      [| rewrite Hrun; now eexists].
    destruct Hrun as (news & _ & ->). now eexists. }
  exists rest. split; [exact Hj |].
  unfold strings.Split in Hname.
  pose proof (splitFrom_slash (Name backup)) as Hparts.
  pose proof (splitFrom_slash_join (Name backup)) as Hjoin.
  destruct (strings.splitFrom "/" 0 (Name backup)) as [p ps].
  split.
  - rewrite List.Forall_forall in Hparts. apply Hparts.
    apply last_Some in Hname as [l ->]. apply in_or_app. right. now left.
  - rewrite last_cons in Hname. destruct (last ps) as [n |] eqn:Hlast.
    + injection Hname as ->. right. apply last_Some in Hlast as [ps' ->].
      rewrite fold_right_app in Hjoin. cbn [fold_right] in Hjoin.
      rewrite append_empty_r in Hjoin.
      exists (p +:+ fold_right (fun part acc => "/" +:+ part +:+ acc) "" ps').
      rewrite Hjoin at 1. rewrite append_assoc. f_equal.
      clear. induction ps' as [|x ps' IH]; [reflexivity |].
      cbn [fold_right]. rewrite IH. now rewrite !append_assoc.
    + injection Hname as ->. left. apply last_None in Hlast as ->.
      cbn [fold_right] in Hjoin. now rewrite append_empty_r in Hjoin.
Qed.
